(** * Invoice parser: the upload endpoint, the text extractors and the
      response assembler, embedded from app/main.py, app/utils.py and
      app/models.py.

    The program is orchestration around four libraries that are not part of
    the repository (pypdf, the OpenAI client, DSPy, pydantic) and around the
    interpreter's own [json] module.  Their behaviour enters the model through
    the record [Env]; everything the repository itself writes (guards, their
    order, the loop over pages, the list comprehension over line items, the
    two [except] clauses) is a definition below. *)

From Stdlib Require Import List ZArith NArith Lia Bool String Ascii SpecFloat.
From Stdlib Require Import Strings.Byte.
Import ListNotations.

Set Implicit Arguments.
Set Warnings "-register-all".


(** ** Python strings: sequences of Unicode code points *)

Definition char := N.
Definition pystr := list char.

(** An ASCII literal of the source as a Python string. *)
Definition lit (s : string) : pystr := map N_of_ascii (list_ascii_of_string s).

Fixpoint str_eqb (a b : pystr) : bool :=
  match a, b with
  | [], [] => true
  | x :: a', y :: b' => N.eqb x y && str_eqb a' b'
  | _, _ => false
  end.

(** [str.isspace] on one code point: the table of CPython's
    [_PyUnicode_IsWhitespace]. *)
Definition isspace (c : char) : bool :=
  ((9 <=? c) && (c <=? 13) || (28 <=? c) && (c <=? 32) || (c =? 133)
   || (c =? 160) || (c =? 5760) || (8192 <=? c) && (c <=? 8202)
   || (c =? 8232) || (c =? 8233) || (c =? 8239) || (c =? 8287)
   || (c =? 12288))%N.

Fixpoint lstrip (s : pystr) : pystr :=
  match s with
  | [] => []
  | c :: s' => if isspace c then lstrip s' else s
  end.

Definition rstrip (s : pystr) : pystr := rev (lstrip (rev s)).

(** [s.strip()] with no argument. *)
Definition strip (s : pystr) : pystr := rstrip (lstrip s).

(** [sep.join(parts)]: the joining that the specification of [pdf_to_text]
    speaks of; the function itself appends a newline after every page. *)
Fixpoint join (sep : pystr) (parts : list pystr) : pystr :=
  match parts with
  | [] => []
  | [p] => p
  | p :: rest => p ++ sep ++ join sep rest
  end.

Fixpoint startswith (pre s : pystr) : bool :=
  match pre, s with
  | [], _ => true
  | x :: pre', y :: s' => N.eqb x y && startswith pre' s'
  | _ :: _, [] => false
  end.

(** [sub in s]. *)
Fixpoint contains (sub s : pystr) : bool :=
  startswith sub s ||
  match s with
  | [] => false
  | _ :: s' => contains sub s'
  end.

Definition newline : pystr := [10%N].

Arguments lit _%_string.

Definition bytes := list byte.

(** [len(b)] *)
Definition len {A} (l : list A) : Z := Z.of_nat (List.length l).

(** ** Results, exceptions and the trace of outside calls *)

Inductive Result (E A : Type) : Type :=
| Ok (a : A)
| Raise (e : E).
Arguments Ok {E A} a.
Arguments Raise {E A} e.

(** The exception classes the handler and the libraries can tell apart.
    [JSONDecodeError] is the class named by the first [except] clause;
    [OtherException] stands for every further subclass of [Exception]. *)
Inductive exc_class :=
| JSONDecodeError | ValidationError | TypeError | ValueError
| OverflowError | AttributeError | IndexError | OtherException.

Definition is_JSONDecodeError (c : exc_class) : bool :=
  match c with JSONDecodeError => true | _ => false end.

(** An exception instance: its class and [str(e)]. *)
Record PyExc := mkExc { exc_type : exc_class; exc_str : pystr }.

(** Values of the dynamically typed part of the program: what a DSPy
    prediction field or a decoded JSON document can hold. *)
Inductive PyVal :=
| VNone
| VBool (b : bool)
| VInt (z : Z)
| VFloat (f : spec_float)
| VStr (s : pystr)
| VList (l : list PyVal)
| VDict (d : list (pystr * PyVal)).

(** [bool(v)], the test of an [if]. *)
Definition truthy (v : PyVal) : bool :=
  match v with
  | VNone => false
  | VBool b => b
  | VInt z => negb (z =? 0)%Z
  | VFloat (S754_zero _) => false
  | VFloat _ => true
  | VStr [] => false
  | VStr _ => true
  | VList [] => false
  | VList _ => true
  | VDict [] => false
  | VDict _ => true
  end.

(** [isinstance(v, str)] *)
Definition isinstance_str (v : PyVal) : bool :=
  match v with VStr _ => true | _ => false end.

(** [d[key]] on the items of a dict (whose keys are distinct). *)
Fixpoint lookup (key : pystr) (d : list (pystr * PyVal)) : option PyVal :=
  match d with
  | [] => None
  | (k, v) :: d' => if str_eqb k key then Some v else lookup key d'
  end.

(** Where the interpreter or pydantic raises on the program's own
    operations.  The class of each fault is fixed; its wording belongs to the
    interpreter and is read from the environment. *)
Inductive Fault :=
| NotIterable (v : PyVal)
| NotAMapping (v : PyVal)
| NoAttribute (name : string)
| FloatArgument (v : PyVal)
| FloatLiteral (s : pystr)
| FloatOverflow (z : Z)
| NoChoice
| LineItemInvalid (kw : list (pystr * PyVal))
| InvoiceDataInvalid (invoice_number date vendor_name total_amount currency : PyVal).

Definition fault_class (f : Fault) : exc_class :=
  match f with
  | NotIterable _ | NotAMapping _ | FloatArgument _ => TypeError
  | NoAttribute _ => AttributeError
  | FloatLiteral _ => ValueError
  | FloatOverflow _ => OverflowError
  | NoChoice => IndexError
  | LineItemInvalid _ | InvoiceDataInvalid _ _ _ _ _ => ValidationError
  end.

(** ** app/models.py *)

Module models.

Record LineItem := mkLineItem {
  description : pystr;
  quantity : spec_float;
  unit_price : spec_float;
  total : spec_float
}.

Record InvoiceData := mkInvoiceData {
  invoice_number : pystr;
  date : pystr;
  vendor_name : pystr;
  total_amount : spec_float;
  currency : pystr;
  line_items : list LineItem
}.

End models.
Import models.

(** ** The outside world *)

(** The attribute store of a [dspy.Prediction]; [None] is an attribute the
    prediction does not have. *)
Record Prediction := mkPrediction {
  p_invoice_number : option PyVal;
  p_date : option PyVal;
  p_vendor_name : option PyVal;
  p_total_amount : option PyVal;
  p_currency : option PyVal;
  p_line_items : option PyVal
}.

(** The request and the reply of [client.chat.completions.create]. *)
Record ChatRequest := mkChatRequest {
  model : pystr;
  prompt : pystr;
  image_url : pystr;
  max_tokens : Z
}.

Record Message := mkMessage { content : PyVal }.
Record Choice := mkChoice { message : Message }.
Record ChatCompletion := mkChatCompletion { choices : list Choice }.

(** A page of a [PdfReader]: what its [extract_text()] does. *)
Definition Page := Result PyExc pystr.

Record Env := mkEnv {
  (** [json.loads] *)
  json_loads : pystr -> Result PyExc PyVal;
  (** the interpreter's reading of a numeric literal, for [float(str)] *)
  float_of_str : pystr -> option spec_float;
  (** pydantic's validators for fields annotated [str] and [float] *)
  validate_str : PyVal -> option pystr;
  validate_float : PyVal -> option spec_float;
  (** [str(e)] for the faults of [Fault] *)
  wording : Fault -> pystr;
  (** [PdfReader(BytesIO(b)).pages] *)
  PdfReader : bytes -> Result PyExc (list Page);
  (** [client.chat.completions.create] *)
  chat_completions_create : ChatRequest -> Result PyExc ChatCompletion;
  (** the DSPy module built by [setup_dspy()] *)
  parser : PyVal -> Result PyExc Prediction
}.

Definition fault (env : Env) (f : Fault) : PyExc :=
  mkExc (fault_class f) (wording env f).

Inductive Event :=
| EvRead
| EvPdfReader (b : bytes)
| EvChatCompletion (r : ChatRequest)
| EvParser (text : PyVal)
| EvJsonLoads (s : pystr).

(** A computation: the calls it made, in order, and how it ended. *)
Definition M (E A : Type) : Type := list Event * Result E A.

Definition ret {E A} (a : A) : M E A := ([], Ok a).
Definition raise {E A} (e : E) : M E A := ([], Raise e).
Definition lift {E A} (r : Result E A) : M E A := ([], r).
Definition call {E A} (ev : Event) (r : Result E A) : M E A := ([ev], r).

Definition bind {E A B} (m : M E A) (k : A -> M E B) : M E B :=
  match m with
  | (tr, Ok a) => let (tr', r) := k a in (tr ++ tr', r)
  | (tr, Raise e) => (tr, Raise e)
  end.

(** [try: body  except ... as e: handler e] *)
Definition try_except {E E' A} (body : M E A) (handler : E -> M E' A) : M E' A :=
  match body with
  | (tr, Ok a) => (tr, Ok a)
  | (tr, Raise e) => let (tr', r) := handler e in (tr ++ tr', r)
  end.

Declare Scope py_scope.
Delimit Scope py_scope with py.
Notation "x <- m ;; k" := (bind m (fun x => k))
  (at level 61, m at next level, right associativity) : py_scope.
Local Open Scope py_scope.

Definition trace {E A} (m : M E A) : list Event := fst m.
Definition outcome {E A} (m : M E A) : Result E A := snd m.

(** ** Builtins the handler uses *)

(** [float(n)] for an [int]: the nearest double, ties to even;
    [None] where CPython raises [OverflowError]. *)
Definition float_of_int (z : Z) : option spec_float :=
  match binary_normalize 53 1024 z 0 false with
  | S754_infinity _ => None
  | f => Some f
  end.

(** [float(v)] *)
Definition py_float (env : Env) (v : PyVal) : Result PyExc spec_float :=
  match v with
  | VFloat f => Ok f
  | VInt z =>
      match float_of_int z with
      | Some f => Ok f
      | None => Raise (fault env (FloatOverflow z))
      end
  | VBool b =>
      match float_of_int (if b then 1 else 0) with
      | Some f => Ok f
      | None => Raise (fault env (FloatOverflow (if b then 1 else 0)))
      end
  | VStr s =>
      match float_of_str env s with
      | Some f => Ok f
      | None => Raise (fault env (FloatLiteral s))
      end
  | VNone | VList _ | VDict _ => Raise (fault env (FloatArgument v))
  end.

(** [iter(v)], run to its end: the items a [for] sees. *)
Definition py_iter (env : Env) (v : PyVal) : Result PyExc (list PyVal) :=
  match v with
  | VList l => Ok l
  | VStr s => Ok (map (fun c => VStr [c]) s)
  | VDict d => Ok (map (fun kv => VStr (fst kv)) d)
  | VNone | VBool _ | VInt _ | VFloat _ => Raise (fault env (NotIterable v))
  end.

(** The keyword arguments of a call [f( **v )]. *)
Definition kwargs (env : Env) (v : PyVal) : Result PyExc (list (pystr * PyVal)) :=
  match v with
  | VDict d => Ok d
  | _ => Raise (fault env (NotAMapping v))
  end.

(** [o.name] on a prediction. *)
Definition getattr (env : Env) (o : option PyVal) (name : string) : Result PyExc PyVal :=
  match o with
  | Some v => Ok v
  | None => Raise (fault env (NoAttribute name))
  end.

(** [[f(x) for x in l]]: the first exception ends the comprehension. *)
Fixpoint comprehension {A B} (f : A -> Result PyExc B) (l : list A) : Result PyExc (list B) :=
  match l with
  | [] => Ok []
  | x :: l' =>
      match f x with
      | Raise e => Raise e
      | Ok y =>
          match comprehension f l' with
          | Raise e => Raise e
          | Ok ys => Ok (y :: ys)
          end
      end
  end.

(** ** Model construction (pydantic, over the fields of app/models.py) *)

(** A required field: present in the keyword arguments and accepted by the
    validator of its annotation. *)
Definition field {A} (kw : list (pystr * PyVal)) (name : string)
  (validate : PyVal -> option A) : option A :=
  match lookup (lit name) kw with
  | Some v => validate v
  | None => None
  end.

(** [LineItem( **kw )] *)
Definition LineItem_init (env : Env) (kw : list (pystr * PyVal)) : Result PyExc LineItem :=
  match field kw "description" (validate_str env),
        field kw "quantity" (validate_float env),
        field kw "unit_price" (validate_float env),
        field kw "total" (validate_float env) with
  | Some d, Some q, Some u, Some t => Ok (mkLineItem d q u t)
  | _, _, _, _ => Raise (fault env (LineItemInvalid kw))
  end.

(** [LineItem( **item )] *)
Definition LineItem_of (env : Env) (item : PyVal) : Result PyExc LineItem :=
  match kwargs env item with
  | Ok kw => LineItem_init env kw
  | Raise e => Raise e
  end.

(** [InvoiceData(invoice_number=.., date=.., vendor_name=.., total_amount=..,
    currency=.., line_items=..)]; the line items are [LineItem] instances
    already and are taken as they are. *)
Definition InvoiceData_init (env : Env)
  (invoice_number date vendor_name : PyVal) (total_amount : spec_float)
  (currency : PyVal) (line_items : list LineItem) : Result PyExc InvoiceData :=
  match validate_str env invoice_number, validate_str env date,
        validate_str env vendor_name, validate_float env (VFloat total_amount),
        validate_str env currency with
  | Some n, Some d, Some v, Some t, Some c => Ok (mkInvoiceData n d v t c line_items)
  | _, _, _, _, _ =>
      Raise (fault env (InvoiceDataInvalid invoice_number date vendor_name
                          (VFloat total_amount) currency))
  end.

(** ** base64.b64encode(..).decode("utf-8") *)

Definition b64_alphabet : pystr :=
  lit "ABCDEFGHIJKLMNOPQRSTUVWXYZabcdefghijklmnopqrstuvwxyz0123456789+/".

Definition b64_digit (i : N) : char := nth (N.to_nat (i mod 64)) b64_alphabet 0%N.

Definition b64_pad : char := 61%N.

Fixpoint b64encode (b : bytes) : pystr :=
  match b with
  | [] => []
  | [x] =>
      let n := (Byte.to_N x * 65536)%N in
      [b64_digit (n / 262144); b64_digit (n / 4096); b64_pad; b64_pad]
  | [x; y] =>
      let n := (Byte.to_N x * 65536 + Byte.to_N y * 256)%N in
      [b64_digit (n / 262144); b64_digit (n / 4096); b64_digit (n / 64); b64_pad]
  | x :: y :: z :: rest =>
      let n := (Byte.to_N x * 65536 + Byte.to_N y * 256 + Byte.to_N z)%N in
      [b64_digit (n / 262144); b64_digit (n / 4096); b64_digit (n / 64); b64_digit n]
        ++ b64encode rest
  end.

(** ** app/utils.py *)

Module utils.

(** The loop of [pdf_to_text]: [text += page.extract_text() + "\n"]. *)
Fixpoint pages_loop (text : pystr) (pages : list Page) : Result PyExc pystr :=
  match pages with
  | [] => Ok text
  | Ok page_text :: rest => pages_loop (text ++ (page_text ++ newline)) rest
  | Raise e :: _ => Raise e
  end.

Definition pdf_to_text (env : Env) (pdf_bytes : bytes) : M PyExc pystr :=
  pages <- call (EvPdfReader pdf_bytes) (PdfReader env pdf_bytes) ;;
  text <- lift (pages_loop [] pages) ;;
  ret (strip text).

Definition vision_prompt : pystr :=
  lit "Extract all text from this invoice image exactly as it appears. Include all numbers, dates, names, addresses, and line items.".

Definition vision_request (image_bytes : bytes) : ChatRequest :=
  let base64_image := b64encode image_bytes in
  {| model := lit "gpt-4.1";
     prompt := vision_prompt;
     image_url := lit "data:image/png;base64," ++ base64_image;
     max_tokens := 2000 |}.

Definition invoice_data_extraction (env : Env) (image_bytes : bytes) : M PyExc PyVal :=
  let request := vision_request image_bytes in
  response <- call (EvChatCompletion request) (chat_completions_create env request) ;;
  match choices response with
  | [] => raise (fault env NoChoice)
  | first :: _ => ret (content (message first))
  end.

End utils.
Import utils.

(** ** app/main.py *)

Module main.

Definition MAX_FILE_SIZE : Z := 10 * 1024 * 1024.
Definition ALLOWED_TYPES : list pystr := [lit "image/png"; lit "application/pdf"].

(** An upload: the declared content type ([None] when the part declares
    none) and what [await file.read()] returns. *)
Record UploadFile := mkUploadFile {
  content_type : option pystr;
  body : bytes
}.

Record HTTPException := mkHTTPException {
  status_code : Z;
  detail : pystr
}.

(** [file.content_type == s] *)
Definition type_is (ct : option pystr) (s : pystr) : bool :=
  match ct with
  | Some c => str_eqb c s
  | None => false
  end.

(** [file.content_type in l] *)
Definition type_in (ct : option pystr) (l : list pystr) : bool :=
  existsb (type_is ct) l.

(** The content type as an f-string prints it. *)
Definition format_type (ct : option pystr) : pystr :=
  match ct with
  | Some c => c
  | None => lit "None"
  end.

Definition health_check : list (pystr * pystr) := [(lit "status", lit "healthy")].

(** Lines 69-76: the line items of the reply. *)
Definition parse_line_items (env : Env) (raw : PyVal) : M PyExc (list LineItem) :=
  if truthy raw then
    parsed_items <-
      match raw with
      | VStr s => call (EvJsonLoads s) (json_loads env s)
      | _ => ret raw
      end ;;
    items <- lift (py_iter env parsed_items) ;;
    lift (comprehension (LineItem_of env) items)
  else ret [].

(** Lines 79-86: the record that is returned. *)
Definition build_response (env : Env) (result : Prediction) (items : list LineItem)
  : Result PyExc InvoiceData :=
  match getattr env (p_invoice_number result) "invoice_number" with
  | Raise e => Raise e
  | Ok invoice_number =>
  match getattr env (p_date result) "date" with
  | Raise e => Raise e
  | Ok date =>
  match getattr env (p_vendor_name result) "vendor_name" with
  | Raise e => Raise e
  | Ok vendor_name =>
  match getattr env (p_total_amount result) "total_amount" with
  | Raise e => Raise e
  | Ok raw_total =>
  match py_float env raw_total with
  | Raise e => Raise e
  | Ok total_amount =>
  match getattr env (p_currency result) "currency" with
  | Raise e => Raise e
  | Ok currency =>
      InvoiceData_init env invoice_number date vendor_name total_amount currency items
  end end end end end end.

(** Lines 60-63: the extractor is chosen by the declared type alone. *)
Definition extract_text (env : Env) (file : UploadFile) (file_bytes : bytes) : M PyExc PyVal :=
  if type_is (content_type file) (lit "application/pdf")
  then (text <- pdf_to_text env file_bytes ;; ret (VStr text))
  else invoice_data_extraction env file_bytes.

(** The body of the [try]. *)
Definition process (env : Env) (file : UploadFile) (file_bytes : bytes) : M PyExc InvoiceData :=
  text <- extract_text env file file_bytes ;;
  result <- call (EvParser text) (parser env text) ;;
  raw <- lift (getattr env (p_line_items result) "line_items") ;;
  items <- parse_line_items env raw ;;
  lift (build_response env result items).

(** The two [except] clauses, in their order. *)
Definition on_exception (e : PyExc) : M HTTPException InvoiceData :=
  if is_JSONDecodeError (exc_type e) then
    raise (mkHTTPException 500 (lit "Failed to parse line items from invoice."))
  else
    raise (mkHTTPException 500 (lit "Failed to process invoice: " ++ exc_str e)).

Definition parse_invoice (env : Env) (file : UploadFile) : M HTTPException InvoiceData :=
  if negb (type_in (content_type file) ALLOWED_TYPES) then
    raise (mkHTTPException 400
             (lit "Invalid file type: " ++ format_type (content_type file)
                ++ lit ". Accepted: PNG and PDF."))
  else
    file_bytes <- call EvRead (Ok (body file)) ;;
    if (len file_bytes =? 0)%Z then
      raise (mkHTTPException 400 (lit "Uploaded file is empty."))
    else if (len file_bytes >? MAX_FILE_SIZE)%Z then
      raise (mkHTTPException 400 (lit "File size exceeds the 10 MB limit."))
    else
      try_except (process env file file_bytes) on_exception.

End main.
Import main.

(** ** Vocabulary of the statements *)

(** The request passes the three guards, its text is extracted and the
    structured extractor answers [result]. *)
Definition answered (env : Env) (file : UploadFile) (result : Prediction) : Prop :=
  type_in (content_type file) ALLOWED_TYPES = true /\
  (0 < len (body file) <= MAX_FILE_SIZE)%Z /\
  exists text,
    outcome (extract_text env file (body file)) = Ok text /\
    parser env text = Ok result.

(** A decoded element that has the four fields of [LineItem], each accepted
    by the validator of its annotation, and the record it stands for. *)
Definition well_formed (env : Env) (doc : PyVal) (r : LineItem) : Prop :=
  exists kw d q u t,
    doc = VDict kw /\
    lookup (lit "description") kw = Some d /\
    lookup (lit "quantity") kw = Some q /\
    lookup (lit "unit_price") kw = Some u /\
    lookup (lit "total") kw = Some t /\
    validate_str env d = Some (description r) /\
    validate_float env q = Some (quantity r) /\
    validate_float env u = Some (unit_price r) /\
    validate_float env t = Some (total r).

(** A decoded element that lacks one of the four fields or holds a value its
    validator refuses. *)
Definition ill_shaped (env : Env) (doc : PyVal) : Prop :=
  exists kw,
    doc = VDict kw /\
    (field kw "description" (validate_str env) = None \/
     field kw "quantity" (validate_float env) = None \/
     field kw "unit_price" (validate_float env) = None \/
     field kw "total" (validate_float env) = None).

(** The five scalar fields of the reply are present and validate, to the
    values [n], [d], [v], [t], [c]. *)
Definition scalars_validate (env : Env) (result : Prediction)
  (n d v : pystr) (t : spec_float) (c : pystr) : Prop :=
  exists rn rd rv rt rc tf,
    p_invoice_number result = Some rn /\ validate_str env rn = Some n /\
    p_date result = Some rd /\ validate_str env rd = Some d /\
    p_vendor_name result = Some rv /\ validate_str env rv = Some v /\
    p_total_amount result = Some rt /\ py_float env rt = Ok tf /\
    validate_float env (VFloat tf) = Some t /\
    p_currency result = Some rc /\ validate_str env rc = Some c.

(** The vision call raises, or answers with no choice. *)
Definition vision_fails (env : Env) (image_bytes : bytes) : Prop :=
  (exists e, chat_completions_create env (vision_request image_bytes) = Raise e) \/
  (exists r, chat_completions_create env (vision_request image_bytes) = Ok r /\
             choices r = []).

Definition parse_failure : HTTPException :=
  mkHTTPException 500 (lit "Failed to parse line items from invoice.").

Definition process_failure (e : PyExc) : HTTPException :=
  mkHTTPException 500 (lit "Failed to process invoice: " ++ exc_str e).

(** ** A concrete environment *)

Module sample.

(** A JSON or Python literal written with ['] for the double quote. *)
Definition dq (s : string) : pystr :=
  map (fun c => if (c =? 39)%N then 34%N else c) (lit s).
Arguments dq _%_string.

Definition float (m e : Z) : spec_float := binary_normalize 53 1024 m e false.

Definition two_items : pystr :=
  dq "[{'description': 'Laptop Stand', 'quantity': 2, 'unit_price': 49.5, 'total': 99.0}, {'description': 'Cable', 'quantity': 1, 'unit_price': 7.25, 'total': 7.25, 'sku': 'C-7'}]".

Definition two_items_decoded : PyVal :=
  VList
    [VDict [(lit "description", VStr (lit "Laptop Stand")); (lit "quantity", VInt 2);
            (lit "unit_price", VFloat (float 99 (-1))); (lit "total", VFloat (float 99 0))];
     VDict [(lit "description", VStr (lit "Cable")); (lit "quantity", VInt 1);
            (lit "unit_price", VFloat (float 29 (-2))); (lit "total", VFloat (float 29 (-2)));
            (lit "sku", VStr (lit "C-7"))]].

Definition two_records : list LineItem :=
  [mkLineItem (lit "Laptop Stand") (float 2 0) (float 99 (-1)) (float 99 0);
   mkLineItem (lit "Cable") (float 1 0) (float 29 (-2)) (float 29 (-2))].

Definition short_item : pystr := dq "[{'description': 'Laptop Stand'}]".

Definition short_item_decoded : PyVal :=
  VList [VDict [(lit "description", VStr (lit "Laptop Stand"))]].

Definition decode_error : PyExc :=
  mkExc JSONDecodeError (lit "Expecting value: line 1 column 1 (char 0)").

(** The decoder on the documents used here; any other text is refused. *)
Definition loads (s : pystr) : Result PyExc PyVal :=
  if str_eqb s two_items then Ok two_items_decoded
  else if str_eqb s short_item then Ok short_item_decoded
  else if str_eqb s (lit "[]") then Ok (VList [])
  else Raise decode_error.

Definition as_str (v : PyVal) : option pystr :=
  match v with VStr s => Some s | _ => None end.

Definition as_float (v : PyVal) : option spec_float :=
  match v with
  | VFloat f => Some f
  | VInt z => float_of_int z
  | _ => None
  end.

Definition words (f : Fault) : pystr :=
  match f with
  | NotIterable _ => lit "object is not iterable"
  | NotAMapping _ => lit "argument after ** must be a mapping"
  | NoAttribute name => lit "'Prediction' object has no attribute '" ++ lit name ++ lit "'"
  | FloatArgument _ => lit "float() argument must be a string or a real number"
  | FloatLiteral s => lit "could not convert string to float: '" ++ s ++ lit "'"
  | FloatOverflow _ => lit "int too large to convert to float"
  | NoChoice => lit "list index out of range"
  | LineItemInvalid _ => lit "validation error for LineItem"
  | InvoiceDataInvalid _ _ _ _ _ => lit "validation error for InvoiceData"
  end.

(** A three-page document, the middle page without a text layer, for any
    buffer that opens with the PDF magic number. *)
Definition pdf_pages : list pystr :=
  [lit "  Rechnung INV-2024-001 "; []; lit "Gesamtbetrag 106,25 EUR "].

Definition pdf_magic : bytes := [x25; x50; x44; x46].

Definition reader (b : bytes) : Result PyExc (list Page) :=
  match b with
  | x25 :: x50 :: x44 :: x46 :: _ => Ok (map Ok pdf_pages)
  | _ => Raise (mkExc OtherException (lit "EOF marker not found"))
  end.

Definition env (reply : Result PyExc ChatCompletion) (answer : Result PyExc Prediction) : Env :=
  {| json_loads := loads;
     float_of_str := fun _ => None;
     validate_str := as_str;
     validate_float := as_float;
     wording := words;
     PdfReader := reader;
     chat_completions_create := fun _ => reply;
     parser := fun _ => answer |}.

Definition transcript : Result PyExc ChatCompletion :=
  Ok (mkChatCompletion [mkChoice (mkMessage (VStr (lit "Rechnung INV-2024-001")))]).

Definition prediction (total_amount line_items : option PyVal) : Prediction :=
  {| p_invoice_number := Some (VStr (lit "INV-2024-001"));
     p_date := Some (VStr (lit "2024-07-25"));
     p_vendor_name := Some (VStr (lit "ACME GmbH"));
     p_total_amount := total_amount;
     p_currency := Some (VStr (lit "EUR"));
     p_line_items := line_items |}.

Definition invoice (items : list LineItem) : InvoiceData :=
  mkInvoiceData (lit "INV-2024-001") (lit "2024-07-25") (lit "ACME GmbH")
    (float 425 (-2)) (lit "EUR") items.

Definition total : option PyVal := Some (VFloat (float 425 (-2))).

Definition png : UploadFile := mkUploadFile (Some (lit "image/png")) [x89; x50; x4e; x47].
Definition pdf : UploadFile := mkUploadFile (Some (lit "application/pdf")) pdf_magic.
Definition txt (b : bytes) : UploadFile := mkUploadFile (Some (lit "text/plain")) b.

(** A buffer of [n] zero bytes. *)
Definition zeros (n : Z) : bytes := repeat x00 (Z.to_nat n).

End sample.

(** ** Further vocabulary *)

(** A string of whitespace only. *)
Definition whitespace (s : pystr) : Prop := Forall (fun c => isspace c = true) s.

(** The one call the chosen text extractor makes. *)
Definition extractor_call (file : UploadFile) : Event :=
  if type_is (content_type file) (lit "application/pdf")
  then EvPdfReader (body file)
  else EvChatCompletion (vision_request (body file)).

(** The value the comprehension of line 76 iterates over: what [json.loads]
    makes of a non-empty string, or a truthy value that is not a string,
    itself. *)
Definition iterated (env : Env) (raw v : PyVal) : Prop :=
  (exists s, raw = VStr s /\ s <> [] /\ json_loads env s = Ok v) \/
  (isinstance_str raw = false /\ truthy raw = true /\ v = raw).

(** The three guards of the endpoint let the upload through. *)
Definition admitted (file : UploadFile) : Prop :=
  type_in (content_type file) ALLOWED_TYPES = true /\
  (0 < len (body file) <= MAX_FILE_SIZE)%Z.

(** ** Further concrete environments *)

Module scenario.

(** The sample environment with a PDF reader and a decoder of one's own. *)
Definition env (loads : pystr -> Result PyExc PyVal)
  (reader : bytes -> Result PyExc (list Page))
  (answer : Result PyExc Prediction) : Env :=
  {| json_loads := loads;
     float_of_str := fun _ => None;
     validate_str := sample.as_str;
     validate_float := sample.as_float;
     wording := sample.words;
     PdfReader := reader;
     chat_completions_create := fun _ => sample.transcript;
     parser := fun _ => answer |}.

Definition damaged : PyExc := mkExc OtherException (lit "damaged page").

(** A document whose second page cannot be read. *)
Definition torn (b : bytes) : Result PyExc (list Page) :=
  Ok [Ok (lit "Rechnung INV-2024-001"); Raise damaged; Ok (lit "Gesamtbetrag")].

(** A scanned document: two pages, neither with a text layer. *)
Definition scanned (b : bytes) : Result PyExc (list Page) :=
  Ok (map Ok [[]; [32%N; 10%N]]).

(** A decoder that answers every text with one value. *)
Definition always (v : PyVal) (s : pystr) : Result PyExc PyVal := Ok v.

Definition answer (line_items : PyVal) : Result PyExc Prediction :=
  Ok (sample.prediction sample.total (Some line_items)).

Definition good_item : PyVal :=
  VDict [(lit "description", VStr (lit "Cable")); (lit "quantity", VInt 1);
         (lit "unit_price", VFloat (sample.float 29 (-2)));
         (lit "total", VFloat (sample.float 29 (-2)))].

Definition good_record : LineItem :=
  mkLineItem (lit "Cable") (sample.float 1 0) (sample.float 29 (-2)) (sample.float 29 (-2)).

(** One item sent as a JSON object instead of an array of objects. *)
Definition single_object : pystr :=
  sample.dq "{'description': 'Cable', 'quantity': 1, 'unit_price': 7.25, 'total': 7.25}".

End scenario.

(** * Properties *)

Unset Implicit Arguments.

(** ** The definitions on known values *)

Example isspace_table :
  map isspace [9; 10; 13; 14; 27; 28; 32; 65; 133; 160; 8202; 8203; 12288]%N
  = [true; true; true; false; false; true; true; false; true; true; true; false; true].
Proof. reflexivity. Qed.

Example strip_both_ends : strip (10 :: lit "  a b " ++ [9; 10])%N = lit "a b".
Proof. reflexivity. Qed.

Example join_three : join newline [lit "a"; []; lit "b"] = [97; 10; 10; 98]%N.
Proof. reflexivity. Qed.

Example b64encode_vectors :
  b64encode [x4d; x61; x6e] = lit "TWFu" /\
  b64encode [x4d; x61] = lit "TWE=" /\
  b64encode [x4d] = lit "TQ==" /\
  b64encode [] = [].
Proof. repeat split. Qed.

Example float_of_int_rounds :
  float_of_int 1 = Some (S754_finite false 4503599627370496 (-52)) /\
  float_of_int (2 ^ 53 + 1) = float_of_int (2 ^ 53) /\
  float_of_int (2 ^ 53 + 3) = float_of_int (2 ^ 53 + 4) /\
  float_of_int (2 ^ 1024 - 2 ^ 970 - 1) = Some (S754_finite false 9007199254740991 971) /\
  float_of_int (2 ^ 1024 - 2 ^ 970) = None.
Proof. repeat split. Qed.

(** The repository's own tests that need no network (tests/test_parser.py). *)

Example test_health_check : health_check = [(lit "status", lit "healthy")].
Proof. reflexivity. Qed.

Example test_reject_invalid_file (env : Env) :
  exists e,
    outcome (parse_invoice env
               (mkUploadFile (Some (lit "text/plain"))
                  (list_byte_of_string "fake image data")))
    = Raise e /\
    status_code e = 400%Z /\
    contains (lit "Invalid file type") (detail e) = true.
Proof. eexists. repeat split. Qed.

Example test_reject_empty_file (env : Env) :
  exists e,
    outcome (parse_invoice env (mkUploadFile (Some (lit "image/png")) [])) = Raise e /\
    status_code e = 400%Z /\
    contains (lit "empty") (detail e) = true.
Proof. eexists. repeat split. Qed.

(** ** Strings *)

Lemma str_eqb_eq (a b : pystr) : str_eqb a b = true <-> a = b.
Proof.
  revert b; induction a as [|x a IH]; intros [|y b]; simpl; split;
    try congruence; try reflexivity.
  - intros H. apply andb_true_iff in H as [Hx Hab].
    apply N.eqb_eq in Hx. apply IH in Hab. congruence.
  - intros H. injection H as -> ->.
    apply andb_true_iff. split; [apply N.eqb_refl | now apply IH].
Qed.

Lemma str_eqb_neq (a b : pystr) : str_eqb a b = false <-> a <> b.
Proof.
  split.
  - intros H E. apply str_eqb_eq in E. congruence.
  - intros H. destruct (str_eqb a b) eqn:E; [|reflexivity].
    apply str_eqb_eq in E. contradiction.
Qed.

Lemma lstrip_snoc (s : pystr) (c : char) :
  isspace c = true ->
  (lstrip (s ++ [c]) = [] /\ lstrip s = []) \/ lstrip (s ++ [c]) = lstrip s ++ [c].
Proof.
  intros Hc. induction s as [|a s IH]; simpl.
  - rewrite Hc. now left.
  - destruct (isspace a); [exact IH | now right].
Qed.

Lemma rstrip_snoc (s : pystr) (c : char) :
  isspace c = true -> rstrip (s ++ [c]) = rstrip s.
Proof.
  intros Hc. unfold rstrip. rewrite rev_app_distr. simpl. now rewrite Hc.
Qed.

Lemma strip_snoc (s : pystr) (c : char) :
  isspace c = true -> strip (s ++ [c]) = strip s.
Proof.
  intros Hc. unfold strip.
  destruct (lstrip_snoc s c Hc) as [[-> ->] | ->]; [reflexivity|].
  now apply rstrip_snoc.
Qed.

Lemma concat_lines (texts : list pystr) :
  texts <> [] ->
  List.concat (map (fun p => p ++ newline) texts) = join newline texts ++ newline.
Proof.
  induction texts as [|p rest IH]; [congruence|]. intros _.
  destruct rest as [|q rest].
  - simpl. now rewrite app_nil_r.
  - change (List.concat (map (fun p => p ++ newline) (p :: q :: rest)))
      with ((p ++ newline) ++ List.concat (map (fun p => p ++ newline) (q :: rest))).
    rewrite IH by congruence.
    change (join newline (p :: q :: rest)) with (p ++ newline ++ join newline (q :: rest)).
    now rewrite <- !app_assoc.
Qed.

Lemma pages_loop_all_ok (texts : list pystr) (text : pystr) :
  pages_loop text (map Ok texts)
  = Ok (text ++ List.concat (map (fun p => p ++ newline) texts)).
Proof.
  revert text; induction texts as [|p rest IH]; intros text; simpl.
  - now rewrite app_nil_r.
  - rewrite IH. now rewrite <- app_assoc.
Qed.

(** ** The monad *)

Lemma outcome_bind {E A B} (m : M E A) (k : A -> M E B) :
  outcome (bind m k)
  = match outcome m with
    | Ok a => outcome (k a)
    | Raise e => Raise e
    end.
Proof.
  destruct m as [tr [a|e]]; simpl; [|reflexivity]. now destruct (k a).
Qed.

Lemma trace_bind {E A B} (m : M E A) (k : A -> M E B) :
  trace (bind m k)
  = trace m ++ match outcome m with
               | Ok a => trace (k a)
               | Raise _ => []
               end.
Proof.
  destruct m as [tr [a|e]]; simpl; [|now rewrite app_nil_r]. now destruct (k a).
Qed.

Lemma outcome_try {E E' A} (body : M E A) (h : E -> M E' A) :
  outcome (try_except body h)
  = match outcome body with
    | Ok a => Ok a
    | Raise e => outcome (h e)
    end.
Proof.
  destruct body as [tr [a|e]]; simpl; [reflexivity|]. now destruct (h e).
Qed.

Lemma trace_try {E E' A} (body : M E A) (h : E -> M E' A) :
  trace (try_except body h)
  = trace body ++ match outcome body with
                  | Ok _ => []
                  | Raise e => trace (h e)
                  end.
Proof.
  destruct body as [tr [a|e]]; simpl; [now rewrite app_nil_r|]. now destruct (h e).
Qed.

Lemma M_eta {E A} (m : M E A) : m = (trace m, outcome m).
Proof. now destruct m. Qed.

(** ** The text extractors *)

(** C3.  For a buffer that the PDF reader opens and whose pages all yield
    their text, [pdf_to_text] returns the pages' texts, in page order, joined
    by newlines and stripped of surrounding whitespace.  A page without a
    text layer is a page whose text is the empty string, and enters the join
    as such. *)
Theorem pdf_to_text_joins_pages (env : Env) (pdf_bytes : bytes) (texts : list pystr) :
  PdfReader env pdf_bytes = Ok (map Ok texts) ->
  outcome (pdf_to_text env pdf_bytes) = Ok (strip (join newline texts)).
Proof.
  intros Hread. unfold pdf_to_text, call, lift, ret.
  rewrite Hread. simpl bind.
  rewrite pages_loop_all_ok. simpl.
  destruct texts as [|p rest]; [reflexivity|].
  rewrite concat_lines by congruence.
  f_equal. now apply strip_snoc.
Qed.

Lemma pdf_to_text_joins_pages_witness :
  PdfReader (sample.env sample.transcript (Raise sample.decode_error)) sample.pdf_magic
    = Ok (map Ok sample.pdf_pages) /\
  outcome (pdf_to_text (sample.env sample.transcript (Raise sample.decode_error))
             sample.pdf_magic)
    = Ok (strip (join newline sample.pdf_pages)).
Proof.
  split; [reflexivity|].
  apply (pdf_to_text_joins_pages
           (sample.env sample.transcript (Raise sample.decode_error))
           sample.pdf_magic sample.pdf_pages).
  reflexivity.
Defined.

(** ** The guards of the endpoint *)

Lemma type_in_allowed (ct : option pystr) :
  type_in ct ALLOWED_TYPES = true
  <-> ct = Some (lit "image/png") \/ ct = Some (lit "application/pdf").
Proof.
  unfold type_in, ALLOWED_TYPES. simpl existsb. rewrite orb_false_r, orb_true_iff.
  destruct ct as [c|]; simpl.
  - rewrite !str_eqb_eq. split; intros [H|H]; [left|right|left|right]; congruence.
  - split; [intros [H|H]; discriminate | intros [H|H]; discriminate].
Qed.

Lemma type_not_allowed (ct : option pystr) :
  ct <> Some (lit "image/png") -> ct <> Some (lit "application/pdf") ->
  type_in ct ALLOWED_TYPES = false.
Proof.
  intros Hpng Hpdf. destruct (type_in ct ALLOWED_TYPES) eqn:E; [|reflexivity].
  apply type_in_allowed in E as [E|E]; contradiction.
Qed.

Lemma len_nonneg {A} (l : list A) : (0 <= len l)%Z.
Proof. unfold len. lia. Qed.

Lemma len_zero {A} (l : list A) : len l = 0%Z <-> l = [].
Proof.
  unfold len. destruct l; simpl; split; intros H; try reflexivity;
    try discriminate; lia.
Qed.

Lemma parse_invoice_wrong_type (env : Env) (file : UploadFile) :
  type_in (content_type file) ALLOWED_TYPES = false ->
  parse_invoice env file
  = ([], Raise (mkHTTPException 400
                  (lit "Invalid file type: " ++ format_type (content_type file)
                     ++ lit ". Accepted: PNG and PDF."))).
Proof. intros H. unfold parse_invoice. now rewrite H. Qed.

Lemma parse_invoice_empty (env : Env) (file : UploadFile) :
  type_in (content_type file) ALLOWED_TYPES = true ->
  body file = [] ->
  parse_invoice env file
  = ([EvRead], Raise (mkHTTPException 400 (lit "Uploaded file is empty."))).
Proof. intros Ht Hb. unfold parse_invoice. rewrite Ht, Hb. reflexivity. Qed.

Lemma parse_invoice_oversized (env : Env) (file : UploadFile) :
  type_in (content_type file) ALLOWED_TYPES = true ->
  (len (body file) > MAX_FILE_SIZE)%Z ->
  parse_invoice env file
  = ([EvRead], Raise (mkHTTPException 400 (lit "File size exceeds the 10 MB limit."))).
Proof.
  intros Ht Hb. unfold parse_invoice. rewrite Ht. simpl negb. cbv iota.
  unfold call, bind.
  assert (MAX_FILE_SIZE = 10485760%Z) as HM by reflexivity.
  destruct (len (body file) =? 0)%Z eqn:E0; [apply Z.eqb_eq in E0; lia|].
  destruct (len (body file) >? MAX_FILE_SIZE)%Z eqn:E1; [reflexivity|].
  rewrite Z.gtb_ltb in E1. apply Z.ltb_ge in E1. lia.
Qed.

(** With the guards passed, the reply is that of the [try] statement. *)
Lemma parse_invoice_guards_passed (env : Env) (file : UploadFile) :
  type_in (content_type file) ALLOWED_TYPES = true ->
  (0 < len (body file) <= MAX_FILE_SIZE)%Z ->
  parse_invoice env file
  = (EvRead :: trace (process env file (body file)),
     match outcome (process env file (body file)) with
     | Ok inv => Ok inv
     | Raise e =>
         Raise (if is_JSONDecodeError (exc_type e) then parse_failure
                else process_failure e)
     end).
Proof.
  intros Ht [Hlo Hhi]. unfold parse_invoice. rewrite Ht. simpl negb. cbv iota.
  unfold call, bind.
  destruct (len (body file) =? 0)%Z eqn:E0; [apply Z.eqb_eq in E0; lia|].
  destruct (len (body file) >? MAX_FILE_SIZE)%Z eqn:E1;
    [rewrite Z.gtb_ltb in E1; apply Z.ltb_lt in E1; lia|].
  destruct (process env file (body file)) as [tr [inv|e]]; simpl; [reflexivity|].
  unfold on_exception. destruct (is_JSONDecodeError (exc_type e)); simpl;
    now rewrite app_nil_r.
Qed.

(** C6.  An upload whose declared content type is neither image/png nor
    application/pdf is answered 400 with detail
    "Invalid file type: <type>. Accepted: PNG and PDF.", <type> being the
    declared type as the f-string prints it; the trace of outside calls is
    empty: the body is not read, no text is extracted, no model is called. *)
Theorem invalid_type_rejected (env : Env) (file : UploadFile) :
  content_type file <> Some (lit "image/png") ->
  content_type file <> Some (lit "application/pdf") ->
  outcome (parse_invoice env file)
  = Raise (mkHTTPException 400
             (lit "Invalid file type: " ++ format_type (content_type file)
                ++ lit ". Accepted: PNG and PDF.")) /\
  trace (parse_invoice env file) = [].
Proof.
  intros Hpng Hpdf.
  rewrite parse_invoice_wrong_type by now apply type_not_allowed.
  split; reflexivity.
Qed.

Lemma invalid_type_rejected_witness :
  outcome (parse_invoice (sample.env sample.transcript (Raise sample.decode_error))
             (sample.txt [x68; x69]))
  = Raise (mkHTTPException 400
             (lit "Invalid file type: text/plain. Accepted: PNG and PDF.")) /\
  trace (parse_invoice (sample.env sample.transcript (Raise sample.decode_error))
           (sample.txt [x68; x69])) = [].
Proof.
  apply (invalid_type_rejected
           (sample.env sample.transcript (Raise sample.decode_error))
           (sample.txt [x68; x69])); simpl; discriminate.
Defined.

(** C4, counterexample.  An empty upload declared text/plain is answered by
    the type check, whose message does not contain "empty". *)
Lemma empty_body_any_type_counterexample :
  body (sample.txt []) = [] /\
  outcome (parse_invoice (sample.env sample.transcript (Raise sample.decode_error))
             (sample.txt []))
  = Raise (mkHTTPException 400
             (lit "Invalid file type: text/plain. Accepted: PNG and PDF.")) /\
  contains (lit "empty")
    (lit "Invalid file type: text/plain. Accepted: PNG and PDF.") = false.
Proof. repeat split. Qed.

(** C4, amended.  An empty upload is always answered 400.  When its declared
    content type is image/png or application/pdf the detail is
    "Uploaded file is empty.", which contains "empty"; for any other
    declared type the type check answers first. *)
Theorem empty_upload_rejected (env : Env) (file : UploadFile) :
  body file = [] ->
  (exists e, outcome (parse_invoice env file) = Raise e /\ status_code e = 400%Z) /\
  (type_in (content_type file) ALLOWED_TYPES = true ->
   outcome (parse_invoice env file)
   = Raise (mkHTTPException 400 (lit "Uploaded file is empty.")) /\
   contains (lit "empty") (lit "Uploaded file is empty.") = true).
Proof.
  intros Hb. split.
  - destruct (type_in (content_type file) ALLOWED_TYPES) eqn:Ht.
    + rewrite parse_invoice_empty by assumption. eexists; split; reflexivity.
    + rewrite parse_invoice_wrong_type by assumption. eexists; split; reflexivity.
  - intros Ht. rewrite parse_invoice_empty by assumption. split; reflexivity.
Qed.

Lemma empty_upload_rejected_witness :
  outcome (parse_invoice (sample.env sample.transcript (Raise sample.decode_error))
             (mkUploadFile (Some (lit "application/pdf")) []))
  = Raise (mkHTTPException 400 (lit "Uploaded file is empty.")).
Proof.
  apply (empty_upload_rejected
           (sample.env sample.transcript (Raise sample.decode_error))
           (mkUploadFile (Some (lit "application/pdf")) []) eq_refl).
  reflexivity.
Defined.

(** C7, counterexample.  A body of 10,485,761 bytes declared text/plain is
    answered by the type check, not by the size check. *)
Lemma oversized_any_type_counterexample :
  (len (body (sample.txt (sample.zeros 10485761))) > 10485760)%Z /\
  outcome (parse_invoice (sample.env sample.transcript (Raise sample.decode_error))
             (sample.txt (sample.zeros 10485761)))
  <> Raise (mkHTTPException 400 (lit "File size exceeds the 10 MB limit.")).
Proof.
  split.
  - unfold sample.txt, sample.zeros, body, len. rewrite repeat_length. lia.
  - rewrite parse_invoice_wrong_type by reflexivity. discriminate.
Qed.

(** C7, amended.  An upload with an accepted content type whose body is
    strictly larger than 10,485,760 bytes is answered 400 with detail
    "File size exceeds the 10 MB limit."; a body of exactly 10,485,760
    bytes passes the size check: the handler goes on to the [try] statement,
    whose reply is never that of the size check. *)
Theorem size_limit (env : Env) (file : UploadFile) :
  type_in (content_type file) ALLOWED_TYPES = true ->
  ((len (body file) > 10485760)%Z ->
   parse_invoice env file
   = ([EvRead], Raise (mkHTTPException 400 (lit "File size exceeds the 10 MB limit.")))) /\
  (len (body file) = 10485760%Z ->
   trace (parse_invoice env file) = EvRead :: trace (process env file (body file)) /\
   outcome (parse_invoice env file)
   = outcome (try_except (process env file (body file)) on_exception) /\
   forall e, outcome (parse_invoice env file) = Raise e -> status_code e = 500%Z).
Proof.
  intros Ht. split.
  - intros Hlen. now apply parse_invoice_oversized.
  - intros Hlen.
    rewrite parse_invoice_guards_passed
      by (try assumption; rewrite Hlen; unfold MAX_FILE_SIZE; lia).
    rewrite outcome_try. unfold outcome at 1, trace at 1. simpl fst. simpl snd.
    split; [reflexivity|]. split.
    + destruct (outcome (process env file (body file))) as [inv|e]; [reflexivity|].
      unfold on_exception. now destruct (is_JSONDecodeError (exc_type e)).
    + intros e. destruct (outcome (process env file (body file))) as [inv|e0];
        [discriminate|].
      intros H. injection H as <-. now destruct (is_JSONDecodeError (exc_type e0)).
Qed.

Lemma size_limit_witness :
  parse_invoice (sample.env sample.transcript (Raise sample.decode_error))
    (mkUploadFile (Some (lit "image/png")) (sample.zeros 10485761))
  = ([EvRead], Raise (mkHTTPException 400 (lit "File size exceeds the 10 MB limit."))) /\
  forall e,
    outcome (parse_invoice (sample.env sample.transcript (Raise sample.decode_error))
               (mkUploadFile (Some (lit "image/png")) (sample.zeros 10485760)))
    = Raise e -> status_code e = 500%Z.
Proof.
  split.
  - apply (size_limit (sample.env sample.transcript (Raise sample.decode_error))
             (mkUploadFile (Some (lit "image/png")) (sample.zeros 10485761)) eq_refl).
    unfold sample.zeros, body, len. rewrite repeat_length. lia.
  - apply (size_limit (sample.env sample.transcript (Raise sample.decode_error))
             (mkUploadFile (Some (lit "image/png")) (sample.zeros 10485760)) eq_refl).
    unfold sample.zeros, body, len. rewrite repeat_length. lia.
Defined.

(** ** The response assembler *)

Lemma fault_not_decode (env : Env) (f : Fault) :
  is_JSONDecodeError (exc_type (fault env f)) = false.
Proof. now destruct f. Qed.

Lemma comprehension_all_ok {A B} (f : A -> Result PyExc B) (l : list A) (ys : list B) :
  Forall2 (fun x y => f x = Ok y) l ys -> comprehension f l = Ok ys.
Proof.
  induction 1 as [|x y l ys Hxy _ IH]; simpl; [reflexivity|].
  now rewrite Hxy, IH.
Qed.

Lemma comprehension_ok_inv {A B} (f : A -> Result PyExc B) (l : list A) (ys : list B) :
  comprehension f l = Ok ys -> Forall2 (fun x y => f x = Ok y) l ys.
Proof.
  revert ys; induction l as [|x l IH]; simpl; intros ys H.
  - injection H as <-. constructor.
  - destruct (f x) as [y|e] eqn:Hx; [|discriminate].
    destruct (comprehension f l) as [ys'|e] eqn:Hl; [|discriminate].
    injection H as <-. constructor; [assumption | now apply IH].
Qed.

Lemma comprehension_one_fails {A B} (f : A -> Result PyExc B) (l : list A) :
  Exists (fun x => exists e, f x = Raise e) l ->
  exists x e, In x l /\ f x = Raise e /\ comprehension f l = Raise e.
Proof.
  induction l as [|x l IH]; intros H; [inversion H|]. simpl.
  destruct (f x) as [y|e] eqn:Hx.
  - assert (Exists (fun x => exists e, f x = Raise e) l) as Hl.
    { inversion H as [? ? [e He]|]; subst; [congruence | assumption]. }
    destruct (IH Hl) as (x' & e & Hin & Hfx & Hc).
    exists x', e. rewrite Hc. auto.
  - exists x, e. auto.
Qed.

Lemma field_found {A} (kw : list (pystr * PyVal)) (name : string)
  (validate : PyVal -> option A) (v : PyVal) :
  lookup (lit name) kw = Some v -> field kw name validate = validate v.
Proof. intros H. unfold field. now rewrite H. Qed.

Lemma LineItem_of_well_formed (env : Env) (doc : PyVal) (r : LineItem) :
  well_formed env doc r -> LineItem_of env doc = Ok r.
Proof.
  intros (kw & d & q & u & t & -> & Ld & Lq & Lu & Lt & Vd & Vq & Vu & Vt).
  unfold LineItem_of, kwargs, LineItem_init.
  rewrite (field_found kw "description" _ d Ld), (field_found kw "quantity" _ q Lq),
    (field_found kw "unit_price" _ u Lu), (field_found kw "total" _ t Lt).
  rewrite Vd, Vq, Vu, Vt. now destruct r.
Qed.

Lemma LineItem_of_ill_shaped (env : Env) (doc : PyVal) :
  ill_shaped env doc -> exists e, LineItem_of env doc = Raise e.
Proof.
  intros (kw & -> & H). exists (fault env (LineItemInvalid kw)).
  unfold LineItem_of, kwargs, LineItem_init.
  destruct H as [H|[H|[H|H]]]; rewrite H;
    repeat match goal with
           | |- context [match field ?k ?n ?v with _ => _ end] => destruct (field k n v)
           end; reflexivity.
Qed.

Lemma LineItem_of_raises (env : Env) (doc : PyVal) (e : PyExc) :
  LineItem_of env doc = Raise e -> is_JSONDecodeError (exc_type e) = false.
Proof.
  unfold LineItem_of, kwargs, LineItem_init. intros H.
  destruct doc;
    repeat match type of H with
           | context [match field ?k ?n ?v with _ => _ end] => destruct (field k n v)
           end;
    try discriminate; injection H as <-; apply fault_not_decode.
Qed.

Lemma comprehension_raises (env : Env) (l : list PyVal) (e : PyExc) :
  comprehension (LineItem_of env) l = Raise e ->
  is_JSONDecodeError (exc_type e) = false.
Proof.
  induction l as [|x l IH]; simpl; [discriminate|].
  destruct (LineItem_of env x) as [y|e'] eqn:Hx.
  - destruct (comprehension (LineItem_of env) l); [discriminate|].
    intros H. injection H as <-. now apply IH.
  - intros H. injection H as <-. now apply LineItem_of_raises in Hx.
Qed.

Lemma py_iter_raises (env : Env) (v : PyVal) (e : PyExc) :
  py_iter env v = Raise e -> is_JSONDecodeError (exc_type e) = false.
Proof.
  destruct v; simpl; try discriminate; intros H; injection H as <-;
    apply fault_not_decode.
Qed.

Lemma getattr_raises (env : Env) (o : option PyVal) (name : string) (e : PyExc) :
  getattr env o name = Raise e -> is_JSONDecodeError (exc_type e) = false.
Proof.
  destruct o; simpl; [discriminate|]. intros H. injection H as <-.
  apply fault_not_decode.
Qed.

Lemma py_float_raises (env : Env) (v : PyVal) (e : PyExc) :
  py_float env v = Raise e -> is_JSONDecodeError (exc_type e) = false.
Proof.
  unfold py_float. intros H.
  destruct v as [|b|z|f|s|l|d];
    repeat match type of H with
           | context [match ?x with _ => _ end] => destruct x
           end;
    try discriminate; injection H as <-; apply fault_not_decode.
Qed.

Lemma build_response_raises (env : Env) (result : Prediction) (items : list LineItem)
  (e : PyExc) :
  build_response env result items = Raise e ->
  is_JSONDecodeError (exc_type e) = false.
Proof.
  unfold build_response, InvoiceData_init. intros H.
  repeat match type of H with
         | context [match getattr ?a ?b ?c with _ => _ end] =>
             let E := fresh "E" in
             destruct (getattr a b c) eqn:E;
             [|injection H as <-; now apply getattr_raises in E]
         | context [match py_float ?a ?b with _ => _ end] =>
             let E := fresh "E" in
             destruct (py_float a b) eqn:E;
             [|injection H as <-; now apply py_float_raises in E]
         end.
  repeat match type of H with
         | context [match ?x with _ => _ end] => destruct x
         end;
    try discriminate; injection H as <-; apply fault_not_decode.
Qed.

Lemma build_response_ok (env : Env) (result : Prediction) (items : list LineItem)
  (n d v : pystr) (t : spec_float) (c : pystr) :
  scalars_validate env result n d v t c ->
  build_response env result items = Ok (mkInvoiceData n d v t c items).
Proof.
  intros (rn & rd & rv & rt & rc & tf & Hn & Vn & Hd & Vd & Hv & Vv & Ht & Ft & Vt
          & Hc & Vc).
  unfold build_response, InvoiceData_init.
  rewrite Hn, Hd, Hv, Ht, Hc. cbn [getattr]. rewrite Ft, Vn, Vd, Vv, Vt, Vc.
  reflexivity.
Qed.

Lemma build_response_ok_inv (env : Env) (result : Prediction) (items : list LineItem)
  (inv : InvoiceData) :
  build_response env result items = Ok inv ->
  scalars_validate env result (invoice_number inv) (date inv) (vendor_name inv)
    (total_amount inv) (currency inv) /\
  line_items inv = items.
Proof.
  unfold build_response, InvoiceData_init, scalars_validate, getattr. intros H.
  destruct (p_invoice_number result) as [rn|]; [|discriminate].
  destruct (p_date result) as [rd|]; [|discriminate].
  destruct (p_vendor_name result) as [rv|]; [|discriminate].
  destruct (p_total_amount result) as [rt|]; [|discriminate].
  destruct (py_float env rt) as [tf|] eqn:Ft; [|discriminate].
  destruct (p_currency result) as [rc|]; [|discriminate].
  destruct (validate_str env rn) as [n|] eqn:Vn; [|discriminate].
  destruct (validate_str env rd) as [d|] eqn:Vd; [|discriminate].
  destruct (validate_str env rv) as [v|] eqn:Vv; [|discriminate].
  destruct (validate_float env (VFloat tf)) as [t|] eqn:Vt; [|discriminate].
  destruct (validate_str env rc) as [c|] eqn:Vc; [|discriminate].
  injection H as <-. simpl. split; [|reflexivity].
  exists rn, rd, rv, rt, rc, tf. repeat split; assumption.
Qed.

Lemma parse_line_items_falsy (env : Env) (raw : PyVal) :
  truthy raw = false -> parse_line_items env raw = ([], Ok []).
Proof. intros H. unfold parse_line_items. now rewrite H. Qed.

Lemma parse_line_items_str (env : Env) (s : pystr) :
  s <> [] ->
  parse_line_items env (VStr s)
  = ([EvJsonLoads s],
     match json_loads env s with
     | Raise e => Raise e
     | Ok decoded =>
         match py_iter env decoded with
         | Raise e => Raise e
         | Ok items => comprehension (LineItem_of env) items
         end
     end).
Proof.
  intros Hs. unfold parse_line_items.
  destruct s as [|c s]; [congruence|]. cbn [truthy].
  unfold call, lift, bind.
  destruct (json_loads env (c :: s)) as [decoded|e]; [|reflexivity].
  destruct (py_iter env decoded) as [items|e]; reflexivity.
Qed.

Lemma parse_line_items_list (env : Env) (docs : list PyVal) :
  parse_line_items env (VList docs)
  = ([], comprehension (LineItem_of env) docs).
Proof.
  unfold parse_line_items. destruct docs as [|x docs]; reflexivity.
Qed.

(** Only [json.loads] is logged by the line-item stage. *)
Lemma parse_line_items_trace (env : Env) (raw : PyVal) :
  trace (parse_line_items env raw) = []
  \/ exists s, raw = VStr s /\ s <> [] /\ trace (parse_line_items env raw) = [EvJsonLoads s].
Proof.
  unfold parse_line_items. destruct (truthy raw) eqn:Ht; [|now left].
  destruct raw as [|b|z|f|s|l|d];
    try (left; unfold ret, lift, bind;
         match goal with
         | |- context [py_iter ?e ?v] => destruct (py_iter e v)
         end; reflexivity).
  right. exists s. split; [reflexivity|]. split.
  - intros ->. discriminate.
  - unfold call, lift, bind. destruct (json_loads env s) as [decoded|e]; [|reflexivity].
    destruct (py_iter env decoded); reflexivity.
Qed.

(** The [try] body once the text is extracted and the extractor has answered. *)
Lemma process_answered (env : Env) (file : UploadFile) (text : PyVal)
  (result : Prediction) :
  outcome (extract_text env file (body file)) = Ok text ->
  parser env text = Ok result ->
  outcome (process env file (body file))
  = match getattr env (p_line_items result) "line_items" with
    | Raise e => Raise e
    | Ok raw =>
        match outcome (parse_line_items env raw) with
        | Raise e => Raise e
        | Ok items => build_response env result items
        end
    end /\
  trace (process env file (body file))
  = trace (extract_text env file (body file))
      ++ EvParser text
      :: match getattr env (p_line_items result) "line_items" with
         | Raise _ => []
         | Ok raw => trace (parse_line_items env raw)
         end.
Proof.
  intros Htext Hparser. unfold process. split.
  - rewrite outcome_bind, Htext. rewrite outcome_bind.
    unfold call at 1. cbn [outcome snd]. rewrite Hparser.
    rewrite outcome_bind. unfold lift at 1. cbn [outcome snd].
    destruct (getattr env (p_line_items result) "line_items") as [raw|e];
      [|reflexivity].
    rewrite outcome_bind.
    destruct (outcome (parse_line_items env raw)); reflexivity.
  - rewrite trace_bind, Htext. f_equal. rewrite trace_bind.
    unfold call at 1 2. cbn [trace outcome fst snd]. rewrite Hparser.
    cbn [app]. f_equal.
    rewrite trace_bind. unfold lift at 1 2. cbn [trace outcome fst snd app].
    destruct (getattr env (p_line_items result) "line_items") as [raw|e];
      [|reflexivity].
    rewrite trace_bind.
    destruct (outcome (parse_line_items env raw)); cbn [lift trace fst];
      now rewrite ?app_nil_r.
Qed.

(** Each extractor makes exactly one outside call. *)
Lemma extract_text_trace (env : Env) (file : UploadFile) (b : bytes) :
  trace (extract_text env file b)
  = [if type_is (content_type file) (lit "application/pdf")
     then EvPdfReader b
     else EvChatCompletion (vision_request b)].
Proof.
  unfold extract_text, pdf_to_text, invoice_data_extraction, call, lift, ret, raise.
  destruct (type_is (content_type file) (lit "application/pdf")).
  - destruct (PdfReader env b) as [pages|e]; [|reflexivity].
    cbn [bind]. destruct (pages_loop [] pages); reflexivity.
  - destruct (chat_completions_create env (vision_request b)) as [r|e]; [|reflexivity].
    cbn [bind]. destruct (choices r); reflexivity.
Qed.

Lemma process_ok_inv (env : Env) (file : UploadFile) (inv : InvoiceData) :
  outcome (process env file (body file)) = Ok inv ->
  exists text result raw items,
    outcome (extract_text env file (body file)) = Ok text /\
    parser env text = Ok result /\
    p_line_items result = Some raw /\
    outcome (parse_line_items env raw) = Ok items /\
    build_response env result items = Ok inv.
Proof.
  unfold process. rewrite outcome_bind.
  destruct (outcome (extract_text env file (body file))) as [text|e] eqn:Htext;
    [|discriminate].
  rewrite outcome_bind. unfold call at 1. cbn [outcome snd].
  destruct (parser env text) as [result|e] eqn:Hparser; [|discriminate].
  rewrite outcome_bind. unfold lift at 1. cbn [outcome snd].
  destruct (p_line_items result) as [raw|] eqn:Hraw; cbn [getattr]; [|discriminate].
  rewrite outcome_bind.
  destruct (outcome (parse_line_items env raw)) as [items|e] eqn:Hitems;
    [|discriminate].
  unfold lift. cbn [outcome snd]. intros H.
  exists text, result, raw, items. auto.
Qed.

(** The reply of the endpoint once the extractor has answered [result]. *)
Lemma reply_after_parser (env : Env) (file : UploadFile) (text : PyVal)
  (result : Prediction) (raw : PyVal) :
  type_in (content_type file) ALLOWED_TYPES = true ->
  (0 < len (body file) <= MAX_FILE_SIZE)%Z ->
  outcome (extract_text env file (body file)) = Ok text ->
  parser env text = Ok result ->
  p_line_items result = Some raw ->
  outcome (parse_invoice env file)
  = match outcome (parse_line_items env raw) with
    | Raise e =>
        Raise (if is_JSONDecodeError (exc_type e) then parse_failure
               else process_failure e)
    | Ok items =>
        match build_response env result items with
        | Ok inv => Ok inv
        | Raise e => Raise (process_failure e)
        end
    end /\
  trace (parse_invoice env file)
  = EvRead :: trace (extract_text env file (body file))
      ++ EvParser text :: trace (parse_line_items env raw).
Proof.
  intros Ht Hlen Htext Hparser Hraw.
  rewrite parse_invoice_guards_passed by assumption.
  destruct (process_answered env file text result Htext Hparser) as [Ho Htr].
  rewrite Hraw in Ho, Htr. cbn [getattr] in Ho, Htr.
  cbn [outcome trace fst snd]. rewrite Ho, Htr. split; [|reflexivity].
  destruct (outcome (parse_line_items env raw)) as [items|e]; [|reflexivity].
  destruct (build_response env result items) as [inv|e] eqn:Hb; [reflexivity|].
  now rewrite (build_response_raises env result items e Hb).
Qed.

Lemma failures_differ (e : PyExc) : process_failure e <> parse_failure.
Proof.
  unfold process_failure, parse_failure. intros H. injection H as H.
  vm_compute in H. discriminate H.
Qed.

(** The hypotheses [answered] and [scalars_validate] in a concrete
    environment: every component is decided by evaluation. *)
Ltac sample_answered :=
  split; [reflexivity|];
  split; [vm_compute; split; [reflexivity | discriminate]|];
  eexists; split; reflexivity.

Ltac sample_scalars := do 6 eexists; repeat split; reflexivity.

(** C2, counterexample.  The empty string is refused by the decoder, yet a
    reply that carries it as [line_items] is assembled into a record with no
    line items: the decoder is not consulted. *)
Lemma empty_string_counterexample :
  json_loads
    (sample.env sample.transcript
       (Ok (sample.prediction sample.total (Some (VStr [])))))
    [] = Raise sample.decode_error /\
  outcome
    (parse_invoice
       (sample.env sample.transcript
          (Ok (sample.prediction sample.total (Some (VStr [])))))
       sample.png)
  = Ok (sample.invoice []).
Proof. split; reflexivity. Qed.

(** C2, amended.  When the request reaches the extraction stage and the
    extractor's reply carries as [line_items] a non-empty string that
    [json.loads] refuses with a [JSONDecodeError], the endpoint answers 500
    with detail exactly "Failed to parse line items from invoice.". *)
Theorem undecodable_line_items (env : Env) (file : UploadFile) (result : Prediction)
  (s : pystr) (e : PyExc) :
  answered env file result ->
  p_line_items result = Some (VStr s) ->
  s <> [] ->
  json_loads env s = Raise e ->
  exc_type e = JSONDecodeError ->
  outcome (parse_invoice env file)
  = Raise (mkHTTPException 500 (lit "Failed to parse line items from invoice.")).
Proof.
  intros (Ht & Hlen & text & Htext & Hparser) Hraw Hs Hloads Hclass.
  destruct (reply_after_parser env file text result (VStr s) Ht Hlen Htext Hparser Hraw)
    as [-> _].
  rewrite parse_line_items_str by assumption. cbn [outcome snd].
  rewrite Hloads, Hclass. reflexivity.
Qed.

Lemma undecodable_line_items_witness :
  outcome
    (parse_invoice
       (sample.env sample.transcript
          (Ok (sample.prediction sample.total (Some (VStr (lit "not json"))))))
       sample.png)
  = Raise (mkHTTPException 500 (lit "Failed to parse line items from invoice.")).
Proof.
  apply (undecodable_line_items
           (sample.env sample.transcript
              (Ok (sample.prediction sample.total (Some (VStr (lit "not json"))))))
           sample.png
           (sample.prediction sample.total (Some (VStr (lit "not json"))))
           (lit "not json") sample.decode_error).
  - sample_answered.
  - reflexivity.
  - discriminate.
  - reflexivity.
  - reflexivity.
Defined.

(** C5, counterexample.  A reply whose [line_items] decodes to an element
    with a description only fails with the message of the general clause,
    not with the fixed one. *)
Lemma ill_shaped_counterexample :
  json_loads
    (sample.env sample.transcript
       (Ok (sample.prediction sample.total (Some (VStr sample.short_item)))))
    sample.short_item
  = Ok (VList [VDict [(lit "description", VStr (lit "Laptop Stand"))]]) /\
  outcome
    (parse_invoice
       (sample.env sample.transcript
          (Ok (sample.prediction sample.total (Some (VStr sample.short_item)))))
       sample.png)
  = Raise (mkHTTPException 500
             (lit "Failed to process invoice: "
                ++ sample.words
                     (LineItemInvalid [(lit "description", VStr (lit "Laptop Stand"))]))) /\
  outcome
    (parse_invoice
       (sample.env sample.transcript
          (Ok (sample.prediction sample.total (Some (VStr sample.short_item)))))
       sample.png)
  <> Raise (mkHTTPException 500 (lit "Failed to parse line items from invoice.")).
Proof.
  split; [reflexivity|]. split; [reflexivity|].
  intros H. vm_compute in H. discriminate H.
Qed.

(** C5, amended.  A [line_items] value that is a non-empty string refused by
    [json.loads] with a [JSONDecodeError] is answered 500 with the fixed
    message "Failed to parse line items from invoice.".  A value that
    decodes to (or already is) a list holding an element without one of the
    four fields, or with a field its validator refuses, is answered 500 with
    detail "Failed to process invoice: <message>".  In both cases the
    request fails as a whole: no record is returned. *)
Theorem malformed_line_items_fail (env : Env) (file : UploadFile) (result : Prediction)
  (raw : PyVal) :
  answered env file result ->
  p_line_items result = Some raw ->
  (forall s e,
     raw = VStr s -> s <> [] ->
     json_loads env s = Raise e -> exc_type e = JSONDecodeError ->
     outcome (parse_invoice env file) = Raise parse_failure) /\
  (forall docs,
     (exists s, raw = VStr s /\ s <> [] /\ json_loads env s = Ok (VList docs))
     \/ raw = VList docs ->
     Exists (ill_shaped env) docs ->
     exists e,
       outcome (parse_invoice env file) = Raise (process_failure e) /\
       process_failure e <> parse_failure).
Proof.
  intros (Ht & Hlen & text & Htext & Hparser) Hraw.
  destruct (reply_after_parser env file text result raw Ht Hlen Htext Hparser Hraw)
    as [Hreply _].
  split.
  - intros s e -> Hs Hloads Hclass. rewrite Hreply.
    rewrite parse_line_items_str by assumption. cbn [outcome snd].
    rewrite Hloads, Hclass. reflexivity.
  - intros docs Hdocs Hbad.
    assert (Exists (fun x => exists e, LineItem_of env x = Raise e) docs) as Hfail.
    { apply Exists_exists in Hbad as (x & Hin & Hx). apply Exists_exists.
      exists x. split; [assumption | now apply LineItem_of_ill_shaped]. }
    destruct (comprehension_one_fails _ docs Hfail) as (x & e & _ & _ & Hc).
    assert (outcome (parse_line_items env raw) = Raise e) as Hout.
    { destruct Hdocs as [(s & -> & Hs & Hloads) | ->].
      - rewrite parse_line_items_str by assumption. cbn [outcome snd].
        rewrite Hloads. cbn [py_iter]. exact Hc.
      - rewrite parse_line_items_list. exact Hc. }
    exists e. rewrite Hreply, Hout.
    rewrite (comprehension_raises env docs e Hc).
    split; [reflexivity | apply failures_differ].
Qed.

Lemma malformed_line_items_fail_witness :
  exists e,
    outcome
      (parse_invoice
         (sample.env sample.transcript
            (Ok (sample.prediction sample.total (Some (VStr sample.short_item)))))
         sample.png)
    = Raise (process_failure e) /\
    process_failure e <> parse_failure.
Proof.
  apply (malformed_line_items_fail
           (sample.env sample.transcript
              (Ok (sample.prediction sample.total (Some (VStr sample.short_item)))))
           sample.png
           (sample.prediction sample.total (Some (VStr sample.short_item)))
           (VStr sample.short_item))
    with (docs := [VDict [(lit "description", VStr (lit "Laptop Stand"))]]).
  - sample_answered.
  - reflexivity.
  - left. exists sample.short_item. split; [reflexivity|].
    split; [discriminate | reflexivity].
  - constructor. eexists. split; [reflexivity|]. right. left. reflexivity.
Defined.

(** C1, counterexample.  The reply carries two well-formed line items as a
    JSON string, but its [total_amount] is [None]: [float(None)] raises and
    no record is produced. *)
Lemma line_items_alone_counterexample :
  json_loads
    (sample.env sample.transcript
       (Ok (sample.prediction (Some VNone) (Some (VStr sample.two_items)))))
    sample.two_items
  = Ok sample.two_items_decoded /\
  Forall2
    (well_formed
       (sample.env sample.transcript
          (Ok (sample.prediction (Some VNone) (Some (VStr sample.two_items))))))
    match sample.two_items_decoded with VList docs => docs | _ => [] end
    sample.two_records /\
  outcome
    (parse_invoice
       (sample.env sample.transcript
          (Ok (sample.prediction (Some VNone) (Some (VStr sample.two_items)))))
       sample.png)
  = Raise (mkHTTPException 500
             (lit "Failed to process invoice: " ++ sample.words (FloatArgument VNone))).
Proof.
  split; [reflexivity|]. split; [|reflexivity].
  repeat constructor; do 5 eexists; repeat split; reflexivity.
Qed.

(** C1, amended.  When the extractor's reply carries as [line_items] a JSON
    string that decodes to an array of N objects, each with description,
    quantity, unit_price and total accepted by the validators of [LineItem],
    the line-item stage yields exactly the N records, in the order of the
    array, their numeric fields being the validators' floats; any record
    the endpoint returns has these line items, and it returns one provided
    the five scalar fields of the reply validate. *)
Theorem line_items_assembled (env : Env) (file : UploadFile) (result : Prediction)
  (s : pystr) (docs : list PyVal) (records : list LineItem) :
  answered env file result ->
  p_line_items result = Some (VStr s) ->
  s <> [] ->
  json_loads env s = Ok (VList docs) ->
  Forall2 (well_formed env) docs records ->
  outcome (parse_line_items env (VStr s)) = Ok records /\
  List.length records = List.length docs /\
  (forall inv, outcome (parse_invoice env file) = Ok inv -> line_items inv = records) /\
  (forall n d v t c,
     scalars_validate env result n d v t c ->
     outcome (parse_invoice env file) = Ok (mkInvoiceData n d v t c records)).
Proof.
  intros (Ht & Hlen & text & Htext & Hparser) Hraw Hs Hloads Hdocs.
  assert (outcome (parse_line_items env (VStr s)) = Ok records) as Hitems.
  { rewrite parse_line_items_str by assumption. cbn [outcome snd].
    rewrite Hloads. cbn [py_iter]. apply comprehension_all_ok.
    eapply Forall2_impl; [|exact Hdocs]. intros doc r. apply LineItem_of_well_formed. }
  destruct (reply_after_parser env file text result (VStr s) Ht Hlen Htext Hparser Hraw)
    as [Hreply _].
  rewrite Hitems in Hreply.
  split; [exact Hitems|]. split; [symmetry; eapply Forall2_length; exact Hdocs|].
  split.
  - intros inv. rewrite Hreply.
    destruct (build_response env result records) as [inv'|e] eqn:Hb; [|discriminate].
    intros H. injection H as <-. now apply build_response_ok_inv in Hb.
  - intros n d v t c Hscalars. rewrite Hreply.
    now rewrite (build_response_ok env result records n d v t c Hscalars).
Qed.

Lemma line_items_assembled_witness :
  outcome
    (parse_invoice
       (sample.env sample.transcript
          (Ok (sample.prediction sample.total (Some (VStr sample.two_items)))))
       sample.pdf)
  = Ok (sample.invoice sample.two_records).
Proof.
  apply (line_items_assembled
           (sample.env sample.transcript
              (Ok (sample.prediction sample.total (Some (VStr sample.two_items)))))
           sample.pdf
           (sample.prediction sample.total (Some (VStr sample.two_items)))
           sample.two_items
           match sample.two_items_decoded with VList docs => docs | _ => [] end
           sample.two_records).
  - sample_answered.
  - reflexivity.
  - discriminate.
  - reflexivity.
  - repeat constructor; do 5 eexists; repeat split; reflexivity.
  - sample_scalars.
Defined.

(** C10.  When the extractor's reply carries a falsy [line_items] ([None],
    the empty string, an empty sequence, or any other value whose truth
    value is false) and its five scalar fields validate, the endpoint
    returns the record with an empty list of line items, and [json.loads]
    is not called. *)
Theorem falsy_line_items_skip_decoding (env : Env) (file : UploadFile)
  (result : Prediction) (raw : PyVal) (n d v : pystr) (t : spec_float) (c : pystr) :
  answered env file result ->
  p_line_items result = Some raw ->
  truthy raw = false ->
  scalars_validate env result n d v t c ->
  outcome (parse_invoice env file) = Ok (mkInvoiceData n d v t c []) /\
  forall s, ~ In (EvJsonLoads s) (trace (parse_invoice env file)).
Proof.
  intros (Ht & Hlen & text & Htext & Hparser) Hraw Hfalsy Hscalars.
  destruct (reply_after_parser env file text result raw Ht Hlen Htext Hparser Hraw)
    as [-> ->].
  rewrite parse_line_items_falsy by assumption. cbn [outcome trace fst snd].
  rewrite (build_response_ok env result [] n d v t c Hscalars).
  split; [reflexivity|].
  rewrite extract_text_trace.
  intros s [H|[H|[H|[]]]]; try discriminate.
  destruct (type_is (content_type file) (lit "application/pdf")); discriminate.
Qed.

Lemma falsy_line_items_skip_decoding_witness :
  (outcome
     (parse_invoice
        (sample.env sample.transcript
           (Ok (sample.prediction sample.total (Some VNone))))
        sample.png)
   = Ok (sample.invoice [])) /\
  (outcome
     (parse_invoice
        (sample.env sample.transcript
           (Ok (sample.prediction sample.total (Some (VStr [])))))
        sample.png)
   = Ok (sample.invoice [])) /\
  (outcome
     (parse_invoice
        (sample.env sample.transcript
           (Ok (sample.prediction sample.total (Some (VList [])))))
        sample.pdf)
   = Ok (sample.invoice [])).
Proof.
  split; [|split].
  - apply (falsy_line_items_skip_decoding
             (sample.env sample.transcript
                (Ok (sample.prediction sample.total (Some VNone))))
             sample.png (sample.prediction sample.total (Some VNone)) VNone).
    + sample_answered.
    + reflexivity.
    + reflexivity.
    + sample_scalars.
  - apply (falsy_line_items_skip_decoding
             (sample.env sample.transcript
                (Ok (sample.prediction sample.total (Some (VStr [])))))
             sample.png (sample.prediction sample.total (Some (VStr []))) (VStr [])).
    + sample_answered.
    + reflexivity.
    + reflexivity.
    + sample_scalars.
  - apply (falsy_line_items_skip_decoding
             (sample.env sample.transcript
                (Ok (sample.prediction sample.total (Some (VList [])))))
             sample.pdf (sample.prediction sample.total (Some (VList []))) (VList [])).
    + sample_answered.
    + reflexivity.
    + reflexivity.
    + sample_scalars.
Defined.

(** C9.  Every request ends either in a record or in an error reply with
    status 400 or 500.  A returned record has all six fields, each taken
    from the like-named attribute of the extractor's reply: the four strings
    and the total as validated, the line items as assembled from the
    [line_items] attribute.  No field is filled in for an absent attribute. *)
Theorem all_or_nothing (env : Env) (file : UploadFile) :
  match outcome (parse_invoice env file) with
  | Ok inv =>
      exists text result raw,
        outcome (extract_text env file (body file)) = Ok text /\
        parser env text = Ok result /\
        scalars_validate env result (invoice_number inv) (date inv)
          (vendor_name inv) (total_amount inv) (currency inv) /\
        p_line_items result = Some raw /\
        outcome (parse_line_items env raw) = Ok (line_items inv)
  | Raise e => status_code e = 400%Z \/ status_code e = 500%Z
  end.
Proof.
  destruct (type_in (content_type file) ALLOWED_TYPES) eqn:Ht.
  2:{ rewrite parse_invoice_wrong_type by assumption. now left. }
  destruct (Z.eq_dec (len (body file)) 0) as [H0|H0].
  { apply len_zero in H0. rewrite parse_invoice_empty by assumption. now left. }
  destruct (Z_gt_dec (len (body file)) MAX_FILE_SIZE) as [Hbig|Hbig].
  { rewrite parse_invoice_oversized by assumption. now left. }
  pose proof (len_nonneg (body file)) as Hpos.
  rewrite parse_invoice_guards_passed by (try assumption; lia).
  cbn [outcome snd].
  destruct (outcome (process env file (body file))) as [inv|e] eqn:Hp.
  - apply process_ok_inv in Hp as (text & result & raw & items & Htext & Hparser
                                   & Hraw & Hitems & Hb).
    apply build_response_ok_inv in Hb as [Hscalars Hli].
    exists text, result, raw. rewrite Hli. auto.
  - right. now destruct (is_JSONDecodeError (exc_type e)).
Qed.

(** X14.  An attribute that the extractor's reply does not have is never
    defaulted: when any of the six is absent the request fails with 500. *)
Lemma absent_attribute_fails (env : Env) (file : UploadFile) (result : Prediction) :
  answered env file result ->
  p_invoice_number result = None \/ p_date result = None \/
  p_vendor_name result = None \/ p_total_amount result = None \/
  p_currency result = None \/ p_line_items result = None ->
  exists e, outcome (parse_invoice env file) = Raise e /\ status_code e = 500%Z.
Proof.
  intros (Ht & Hlen & text & Htext & Hparser) Habsent.
  rewrite parse_invoice_guards_passed by assumption. cbn [outcome snd].
  destruct (outcome (process env file (body file))) as [inv|e] eqn:Hp.
  - apply process_ok_inv in Hp as (text' & result' & raw & items & Htext' & Hparser'
                                   & Hraw & _ & Hb).
    rewrite Htext in Htext'. injection Htext' as <-.
    rewrite Hparser in Hparser'. injection Hparser' as <-.
    apply build_response_ok_inv in Hb as [Hs _].
    destruct Hs as (rn & rd & rv & rt & rc & tf & Hn & _ & Hd & _ & Hv & _ & Htt & _
                    & _ & Hc & _).
    destruct Habsent as [E|[E|[E|[E|[E|E]]]]]; congruence.
  - eexists. split; [reflexivity|]. now destruct (is_JSONDecodeError (exc_type e)).
Qed.

Lemma invoice_data_extraction_fails (env : Env) (image_bytes : bytes) :
  vision_fails env image_bytes ->
  exists e,
    invoice_data_extraction env image_bytes
    = ([EvChatCompletion (vision_request image_bytes)], Raise e) /\
    (forall e0,
       chat_completions_create env (vision_request image_bytes) = Raise e0 -> e = e0) /\
    (forall r,
       chat_completions_create env (vision_request image_bytes) = Ok r ->
       e = fault env NoChoice).
Proof.
  unfold invoice_data_extraction, call, bind.
  intros [[e He] | (r & Hr & Hnone)].
  - exists e. rewrite He. split; [reflexivity|].
    split; [intros e0 H; congruence | intros r H; discriminate].
  - exists (fault env NoChoice). rewrite Hr, Hnone. split; [reflexivity|].
    split; [intros e0 H; discriminate | reflexivity].
Qed.

(** C8.  When the vision call raises, or answers with no choice, the image
    extractor raises: the call's own exception in the first case, the
    [IndexError] of [choices[0]] in the second.  It returns no text, and an
    image/png request that reaches it is answered 500 without the
    structured extractor being called. *)
Theorem vision_failure_propagates (env : Env) (image_bytes : bytes) :
  vision_fails env image_bytes ->
  exists e,
    outcome (invoice_data_extraction env image_bytes) = Raise e /\
    (forall e0,
       chat_completions_create env (vision_request image_bytes) = Raise e0 -> e = e0) /\
    (forall r,
       chat_completions_create env (vision_request image_bytes) = Ok r ->
       e = fault env NoChoice /\ exc_type e = IndexError) /\
    (forall file,
       content_type file = Some (lit "image/png") ->
       body file = image_bytes ->
       (0 < len image_bytes <= MAX_FILE_SIZE)%Z ->
       exists h,
         outcome (parse_invoice env file) = Raise h /\
         status_code h = 500%Z /\
         trace (parse_invoice env file)
         = [EvRead; EvChatCompletion (vision_request image_bytes)]).
Proof.
  intros Hfails.
  destruct (invoice_data_extraction_fails env image_bytes Hfails)
    as (e & Hrun & Hcall & Hnone).
  exists e. rewrite Hrun. split; [reflexivity|]. split; [exact Hcall|].
  split; [intros r Hr; rewrite (Hnone r Hr); split; reflexivity|].
  intros file Hct Hbody Hlen.
  rewrite parse_invoice_guards_passed
    by (rewrite ?Hct, ?Hbody; first [reflexivity | assumption]).
  assert (process env file (body file)
          = ([EvChatCompletion (vision_request image_bytes)], Raise e)) as ->.
  { unfold process, extract_text. rewrite Hct, Hbody.
    change (type_is (Some (lit "image/png")) (lit "application/pdf")) with false.
    cbv iota. now rewrite Hrun. }
  cbn [outcome trace fst snd]. eexists. split; [reflexivity|].
  split; [now destruct (is_JSONDecodeError (exc_type e)) | reflexivity].
Qed.

Lemma vision_failure_propagates_witness :
  (exists e,
     outcome
       (invoice_data_extraction
          (sample.env (Ok (mkChatCompletion []))
             (Ok (sample.prediction sample.total (Some (VStr sample.two_items)))))
          (body sample.png))
     = Raise e) /\
  (exists e,
     outcome
       (invoice_data_extraction
          (sample.env (Raise (mkExc OtherException (lit "Connection error.")))
             (Ok (sample.prediction sample.total (Some (VStr sample.two_items)))))
          (body sample.png))
     = Raise e).
Proof.
  split.
  - destruct (vision_failure_propagates
                (sample.env (Ok (mkChatCompletion []))
                   (Ok (sample.prediction sample.total (Some (VStr sample.two_items)))))
                (body sample.png)) as (e & He & _).
    + right. eexists. split; reflexivity.
    + exists e. exact He.
  - destruct (vision_failure_propagates
                (sample.env (Raise (mkExc OtherException (lit "Connection error.")))
                   (Ok (sample.prediction sample.total (Some (VStr sample.two_items)))))
                (body sample.png)) as (e & He & _).
    + left. eexists. reflexivity.
    + exists e. exact He.
Defined.

(** * Further properties of the code *)

(** ** Stripping *)

Lemma lstrip_decompose (s : pystr) :
  exists pre, s = pre ++ lstrip s /\ whitespace pre.
Proof.
  induction s as [|c s (pre & Hs & Hpre)]; simpl.
  - exists []. split; [reflexivity | constructor].
  - destruct (isspace c) eqn:Hc.
    + exists (c :: pre). split; [simpl; congruence | now constructor].
    + exists []. split; [reflexivity | constructor].
Qed.

Lemma lstrip_head (s : pystr) (c : char) (t : pystr) :
  lstrip s = c :: t -> isspace c = false.
Proof.
  induction s as [|a s IH]; simpl; [discriminate|].
  destruct (isspace a) eqn:Ha; [exact IH|].
  intros H. injection H as <- _. exact Ha.
Qed.

Lemma whitespace_rev (s : pystr) : whitespace s -> whitespace (rev s).
Proof. unfold whitespace. apply Forall_rev. Qed.

Lemma rstrip_decompose (s : pystr) :
  exists post, s = rstrip s ++ post /\ whitespace post.
Proof.
  destruct (lstrip_decompose (rev s)) as (pre & Hs & Hpre).
  exists (rev pre). split; [|now apply whitespace_rev].
  unfold rstrip. rewrite <- rev_app_distr, <- Hs. now rewrite rev_involutive.
Qed.

Lemma rstrip_last (s : pystr) (c : char) (front : pystr) :
  rstrip s = front ++ [c] -> isspace c = false.
Proof.
  unfold rstrip. intros H.
  apply (f_equal (@rev char)) in H. rewrite rev_involutive, rev_app_distr in H.
  simpl in H. now apply lstrip_head in H.
Qed.

Lemma strip_decompose (s : pystr) :
  exists pre post,
    s = pre ++ strip s ++ post /\ whitespace pre /\ whitespace post.
Proof.
  destruct (lstrip_decompose s) as (pre & Hs & Hpre).
  destruct (rstrip_decompose (lstrip s)) as (post & Ht & Hpost).
  exists pre, post. unfold strip. rewrite <- Ht. auto.
Qed.

Lemma strip_head (s : pystr) (c : char) (t : pystr) :
  strip s = c :: t -> isspace c = false.
Proof.
  unfold strip. intros H.
  destruct (rstrip_decompose (lstrip s)) as (post & Ht & _).
  rewrite H in Ht. simpl in Ht. now apply lstrip_head in Ht.
Qed.

Lemma strip_last (s : pystr) (c : char) (front : pystr) :
  strip s = front ++ [c] -> isspace c = false.
Proof. unfold strip. apply rstrip_last. Qed.

Lemma lstrip_whitespace (s : pystr) : whitespace s -> lstrip s = [].
Proof.
  induction 1 as [|c s Hc _ IH]; simpl; [reflexivity|]. now rewrite Hc.
Qed.

Lemma strip_whitespace (s : pystr) : whitespace s -> strip s = [].
Proof. intros H. unfold strip. now rewrite (lstrip_whitespace s H). Qed.

Lemma whitespace_lines (texts : list pystr) :
  Forall whitespace texts ->
  whitespace (List.concat (map (fun p => p ++ newline) texts)).
Proof.
  induction 1 as [|p texts Hp _ IH]; simpl; [constructor|].
  unfold whitespace in *. repeat (apply Forall_app; split); try assumption.
  repeat constructor.
Qed.

Lemma pdf_to_text_all_ok (env : Env) (pdf_bytes : bytes) (texts : list pystr) :
  PdfReader env pdf_bytes = Ok (map Ok texts) ->
  pdf_to_text env pdf_bytes
  = ([EvPdfReader pdf_bytes],
     Ok (strip (List.concat (map (fun p => p ++ newline) texts)))).
Proof.
  intros Hread. unfold pdf_to_text, call, lift, ret. rewrite Hread.
  cbn [bind]. rewrite pages_loop_all_ok. reflexivity.
Qed.

Lemma pages_loop_first_failure (texts : list pystr) (e : PyExc) (rest : list Page)
  (text : pystr) :
  pages_loop text (map Ok texts ++ Raise e :: rest) = Raise e.
Proof.
  revert text; induction texts as [|p texts IH]; intros text; simpl;
    [reflexivity | apply IH].
Qed.

(** ** The [try] body as a whole *)

Lemma process_trace (env : Env) (file : UploadFile) (b : bytes) :
  trace (process env file b)
  = trace (extract_text env file b)
      ++ match outcome (extract_text env file b) with
         | Raise _ => []
         | Ok text =>
             EvParser text
             :: match parser env text with
                | Raise _ => []
                | Ok result =>
                    match p_line_items result with
                    | None => []
                    | Some raw => trace (parse_line_items env raw)
                    end
                end
         end.
Proof.
  unfold process. rewrite trace_bind. f_equal.
  destruct (outcome (extract_text env file b)) as [text|e]; [|reflexivity].
  rewrite trace_bind. unfold call at 1 2. cbn [trace outcome fst snd app].
  f_equal. destruct (parser env text) as [result|e]; [|reflexivity].
  rewrite trace_bind. unfold lift at 1 2. cbn [trace outcome fst snd app].
  destruct (p_line_items result) as [raw|]; cbn [getattr]; [|reflexivity].
  rewrite trace_bind.
  destruct (outcome (parse_line_items env raw)); cbn [lift trace fst];
    now rewrite ?app_nil_r.
Qed.

Lemma process_outcome (env : Env) (file : UploadFile) (b : bytes) :
  outcome (process env file b)
  = match outcome (extract_text env file b) with
    | Raise e => Raise e
    | Ok text =>
        match parser env text with
        | Raise e => Raise e
        | Ok result =>
            match getattr env (p_line_items result) "line_items" with
            | Raise e => Raise e
            | Ok raw =>
                match outcome (parse_line_items env raw) with
                | Raise e => Raise e
                | Ok items => build_response env result items
                end
            end
        end
    end.
Proof.
  unfold process. rewrite outcome_bind.
  destruct (outcome (extract_text env file b)) as [text|e]; [|reflexivity].
  rewrite outcome_bind. unfold call at 1. cbn [outcome snd].
  destruct (parser env text) as [result|e]; [|reflexivity].
  rewrite outcome_bind. unfold lift at 1. cbn [outcome snd].
  destruct (getattr env (p_line_items result) "line_items") as [raw|e]; [|reflexivity].
  rewrite outcome_bind.
  destruct (outcome (parse_line_items env raw)); reflexivity.
Qed.

Lemma extract_text_trace_call (env : Env) (file : UploadFile) :
  trace (extract_text env file (body file)) = [extractor_call file].
Proof. apply extract_text_trace. Qed.

(** What is logged after the extractor's call. *)
Lemma parse_invoice_trace (env : Env) (file : UploadFile) :
  admitted file ->
  trace (parse_invoice env file)
  = EvRead :: extractor_call file
      :: match outcome (extract_text env file (body file)) with
         | Raise _ => []
         | Ok text =>
             EvParser text
             :: match parser env text with
                | Raise _ => []
                | Ok result =>
                    match p_line_items result with
                    | None => []
                    | Some raw => trace (parse_line_items env raw)
                    end
                end
         end.
Proof.
  intros [Ht Hlen]. rewrite parse_invoice_guards_passed by assumption.
  cbn [trace fst]. rewrite process_trace, extract_text_trace_call. reflexivity.
Qed.

Lemma not_admitted (env : Env) (file : UploadFile) :
  ~ admitted file ->
  exists e,
    outcome (parse_invoice env file) = Raise e /\ status_code e = 400%Z /\
    (trace (parse_invoice env file) = [] \/ trace (parse_invoice env file) = [EvRead]).
Proof.
  intros Hna. destruct (type_in (content_type file) ALLOWED_TYPES) eqn:Ht.
  - destruct (Z.eq_dec (len (body file)) 0) as [H0|H0].
    + apply len_zero in H0. rewrite parse_invoice_empty by assumption.
      eexists. split; [reflexivity|]. split; [reflexivity | now right].
    + destruct (Z_gt_dec (len (body file)) MAX_FILE_SIZE) as [Hbig|Hbig].
      * rewrite parse_invoice_oversized by assumption.
        eexists. split; [reflexivity|]. split; [reflexivity | now right].
      * exfalso. apply Hna. split; [assumption|].
        pose proof (len_nonneg (body file)). lia.
  - rewrite parse_invoice_wrong_type by assumption.
    eexists. split; [reflexivity|]. split; [reflexivity | now left].
Qed.

Lemma admitted_dec (file : UploadFile) : admitted file \/ ~ admitted file.
Proof.
  unfold admitted. destruct (type_in (content_type file) ALLOWED_TYPES).
  - destruct (Z_lt_dec 0 (len (body file))); [|right; intros [_ H]; lia].
    destruct (Z_le_dec (len (body file)) MAX_FILE_SIZE); [|right; intros [_ H]; lia].
    left. split; [reflexivity | lia].
  - right. intros [H _]. discriminate.
Qed.

Lemma admitted_status (env : Env) (file : UploadFile) (e : HTTPException) :
  admitted file -> outcome (parse_invoice env file) = Raise e -> status_code e = 500%Z.
Proof.
  intros [Ht Hlen]. rewrite parse_invoice_guards_passed by assumption.
  cbn [outcome snd]. destruct (outcome (process env file (body file))) as [inv|e0];
    [discriminate|].
  intros H. injection H as <-. now destruct (is_JSONDecodeError (exc_type e0)).
Qed.

(** ** The endpoint as a whole *)

(** X1.  The endpoint answers 400 exactly when one of its three guards
    refuses the upload: the declared type is not accepted, the body is
    empty, or the body is longer than MAX_FILE_SIZE.  Nothing that happens
    after the guards is ever reported as 400. *)
Theorem bad_request_iff_guard (env : Env) (file : UploadFile) :
  (exists e, outcome (parse_invoice env file) = Raise e /\ status_code e = 400%Z)
  <-> type_in (content_type file) ALLOWED_TYPES = false
      \/ body file = []
      \/ (len (body file) > MAX_FILE_SIZE)%Z.
Proof.
  split.
  - intros (e & He & Hs). destruct (admitted_dec file) as [Ha|Hna].
    + rewrite (admitted_status env file e Ha He) in Hs. discriminate.
    + destruct (type_in (content_type file) ALLOWED_TYPES) eqn:Ht; [|now left].
      right. destruct (Z.eq_dec (len (body file)) 0) as [H0|H0];
        [left; now apply len_zero|].
      right. destruct (Z_gt_dec (len (body file)) MAX_FILE_SIZE) as [Hbig|Hbig];
        [assumption|].
      exfalso. apply Hna. split; [assumption|].
      pose proof (len_nonneg (body file)). lia.
  - intros H. destruct (not_admitted env file) as (e & He & Hs & _).
    + intros [Ht [Hlo Hhi]]. destruct H as [H|[H|H]].
      * congruence.
      * apply len_zero in H. lia.
      * lia.
    + exists e. auto.
Qed.

(** X2.  The outside calls of one request follow a fixed protocol: the body
    is read, the one extractor chosen by the declared type is called, the
    structured extractor is called with the extracted text, [json.loads] is
    called with the reply's [line_items] string.  Each call is made at most
    once, in this order, and only if the one before it returned: the parser
    runs only on text that was extracted, the decoder only on a non-empty
    string that the parser's reply carries. *)
Theorem call_protocol (env : Env) (file : UploadFile) :
  trace (parse_invoice env file) = [] \/
  trace (parse_invoice env file) = [EvRead] \/
  trace (parse_invoice env file) = [EvRead; extractor_call file] \/
  exists text,
    outcome (extract_text env file (body file)) = Ok text /\
    (trace (parse_invoice env file) = [EvRead; extractor_call file; EvParser text] \/
     exists result s,
       parser env text = Ok result /\
       p_line_items result = Some (VStr s) /\
       s <> [] /\
       trace (parse_invoice env file)
       = [EvRead; extractor_call file; EvParser text; EvJsonLoads s]).
Proof.
  destruct (admitted_dec file) as [Ha|Hna].
  2:{ destruct (not_admitted env file Hna) as (e & _ & _ & [H|H]); auto. }
  rewrite (parse_invoice_trace env file Ha).
  destruct (outcome (extract_text env file (body file))) as [text|e] eqn:Htext.
  2:{ right. right. now left. }
  right. right. right. exists text. split; [reflexivity|].
  destruct (parser env text) as [result|e] eqn:Hparser; [|now left].
  destruct (p_line_items result) as [raw|] eqn:Hraw; [|now left].
  destruct (parse_line_items_trace env raw) as [-> | (s & -> & Hs & ->)];
    [now left|].
  right. exists result, s. auto.
Qed.

(** X3.  The extractor is chosen by the declared content type alone, never
    by the bytes: an admitted upload declared application/pdf goes to the
    PDF reader and never to the vision model, one declared image/png goes
    to the vision model and never to the PDF reader. *)
Theorem dispatch_by_declared_type (env : Env) (file : UploadFile) :
  admitted file ->
  (content_type file = Some (lit "application/pdf") ->
   (exists rest,
      trace (parse_invoice env file) = EvRead :: EvPdfReader (body file) :: rest) /\
   forall r, ~ In (EvChatCompletion r) (trace (parse_invoice env file))) /\
  (content_type file = Some (lit "image/png") ->
   (exists rest,
      trace (parse_invoice env file)
      = EvRead :: EvChatCompletion (vision_request (body file)) :: rest) /\
   forall b, ~ In (EvPdfReader b) (trace (parse_invoice env file))).
Proof.
  intros Ha. rewrite (parse_invoice_trace env file Ha).
  assert (forall ev,
            In ev match outcome (extract_text env file (body file)) with
                  | Raise _ => []
                  | Ok text =>
                      EvParser text
                      :: match parser env text with
                         | Raise _ => []
                         | Ok result =>
                             match p_line_items result with
                             | None => []
                             | Some raw => trace (parse_line_items env raw)
                             end
                         end
                  end ->
            (exists t, ev = EvParser t) \/ (exists s, ev = EvJsonLoads s)) as Htail.
  { intros ev. destruct (outcome (extract_text env file (body file))) as [text|e];
      [|intros []].
    intros [<-|H]; [left; eauto|].
    destruct (parser env text) as [result|e]; [|destruct H].
    destruct (p_line_items result) as [raw|]; [|destruct H].
    destruct (parse_line_items_trace env raw) as [E | (s & _ & _ & E)];
      rewrite E in H; [destruct H|].
    destruct H as [<-|[]]. right. eauto. }
  unfold extractor_call. split; intros Hct; rewrite Hct.
  - change (type_is (Some (lit "application/pdf")) (lit "application/pdf")) with true.
    cbv iota. split; [eexists; reflexivity|].
    intros r [H|[H|H]]; try discriminate.
    apply Htail in H as [(t & H)|(s & H)]; discriminate.
  - change (type_is (Some (lit "image/png")) (lit "application/pdf")) with false.
    cbv iota. split; [eexists; reflexivity|].
    intros b [H|[H|H]]; try discriminate.
    apply Htail in H as [(t & H)|(s & H)]; discriminate.
Qed.

Lemma dispatch_by_declared_type_witness :
  (exists rest,
     trace (parse_invoice (sample.env sample.transcript (scenario.answer (VList [])))
              (mkUploadFile (Some (lit "image/png")) sample.pdf_magic))
     = EvRead :: EvChatCompletion (vision_request sample.pdf_magic) :: rest) /\
  forall b,
    ~ In (EvPdfReader b)
        (trace (parse_invoice (sample.env sample.transcript (scenario.answer (VList [])))
                  (mkUploadFile (Some (lit "image/png")) sample.pdf_magic))).
Proof.
  apply (dispatch_by_declared_type
           (sample.env sample.transcript (scenario.answer (VList [])))
           (mkUploadFile (Some (lit "image/png")) sample.pdf_magic)).
  - split; [reflexivity | vm_compute; split; [reflexivity | discriminate]].
  - reflexivity.
Defined.

(** X4.  An exception of the text extractor or of the structured extractor
    is answered 500 by the same two clauses as one of the assembler: with
    the fixed line-items message when its class is [JSONDecodeError], even
    though no line items were decoded, and with
    "Failed to process invoice: <message>" otherwise.  [json.loads] is not
    called. *)
Theorem upstream_failure_reported (env : Env) (file : UploadFile) (e : PyExc) :
  admitted file ->
  (outcome (extract_text env file (body file)) = Raise e \/
   exists text,
     outcome (extract_text env file (body file)) = Ok text /\
     parser env text = Raise e) ->
  outcome (parse_invoice env file)
  = Raise (if is_JSONDecodeError (exc_type e)
           then mkHTTPException 500 (lit "Failed to parse line items from invoice.")
           else mkHTTPException 500 (lit "Failed to process invoice: " ++ exc_str e)) /\
  forall s, ~ In (EvJsonLoads s) (trace (parse_invoice env file)).
Proof.
  intros Ha Hup. rewrite (parse_invoice_trace env file Ha).
  destruct Ha as [Ht Hlen]. rewrite parse_invoice_guards_passed by assumption.
  cbn [outcome snd]. rewrite process_outcome.
  destruct Hup as [Hx | (text & Hx & Hp)]; rewrite Hx; [|rewrite Hp].
  - split; [reflexivity|]. intros s [H|[H|[]]]; [discriminate|].
    unfold extractor_call in H.
    destruct (type_is (content_type file) (lit "application/pdf")); discriminate.
  - split; [reflexivity|]. intros s [H|[H|[H|[]]]]; try discriminate.
    unfold extractor_call in H.
    destruct (type_is (content_type file) (lit "application/pdf")); discriminate.
Qed.

Lemma upstream_failure_reported_witness :
  outcome (parse_invoice (sample.env sample.transcript (Raise sample.decode_error))
             sample.png)
  = Raise (mkHTTPException 500 (lit "Failed to parse line items from invoice.")) /\
  forall s,
    ~ In (EvJsonLoads s)
        (trace (parse_invoice (sample.env sample.transcript (Raise sample.decode_error))
                  sample.png)).
Proof.
  apply (upstream_failure_reported
           (sample.env sample.transcript (Raise sample.decode_error))
           sample.png sample.decode_error).
  - split; [reflexivity | vm_compute; split; [reflexivity | discriminate]].
  - right. eexists. split; reflexivity.
Defined.

(** ** The PDF extractor *)

Lemma extract_text_pdf (env : Env) (file : UploadFile) (b : bytes) (texts : list pystr) :
  content_type file = Some (lit "application/pdf") ->
  PdfReader env b = Ok (map Ok texts) ->
  extract_text env file b
  = ([EvPdfReader b],
     Ok (VStr (strip (List.concat (map (fun p => p ++ newline) texts))))).
Proof.
  intros Hct Hread. unfold extract_text. rewrite Hct.
  change (type_is (Some (lit "application/pdf")) (lit "application/pdf")) with true.
  cbv iota. now rewrite (pdf_to_text_all_ok env b texts Hread).
Qed.

(** X5.  [pdf_to_text] has no handler of its own: when the reader refuses
    the buffer, or when a page's [extract_text()] raises, that exception is
    what the function raises.  The first failing page decides; the pages
    after it are not extracted and no partial text is returned. *)
Theorem first_failing_page_propagates (env : Env) (pdf_bytes : bytes) (e : PyExc) :
  (PdfReader env pdf_bytes = Raise e \/
   exists texts rest, PdfReader env pdf_bytes = Ok (map Ok texts ++ Raise e :: rest)) ->
  pdf_to_text env pdf_bytes = ([EvPdfReader pdf_bytes], Raise e).
Proof.
  unfold pdf_to_text, call, lift. intros [H | (texts & rest & H)]; rewrite H.
  - reflexivity.
  - cbn [bind]. now rewrite pages_loop_first_failure.
Qed.

Lemma first_failing_page_propagates_witness :
  pdf_to_text (scenario.env sample.loads scenario.torn (scenario.answer (VList [])))
    sample.pdf_magic
  = ([EvPdfReader sample.pdf_magic], Raise scenario.damaged).
Proof.
  apply (first_failing_page_propagates
           (scenario.env sample.loads scenario.torn (scenario.answer (VList [])))
           sample.pdf_magic scenario.damaged).
  right. exists [lit "Rechnung INV-2024-001"], [Ok (lit "Gesamtbetrag")]. reflexivity.
Defined.

(** X6.  For a document whose pages all yield their text, [pdf_to_text]
    only trims: the text it returns is the pages' texts, each followed by a
    newline, less a prefix and a suffix of whitespace.  No other character
    is lost or changed, and the result neither begins nor ends with a
    whitespace character. *)
Theorem pdf_to_text_only_trims (env : Env) (pdf_bytes : bytes) (texts : list pystr) :
  PdfReader env pdf_bytes = Ok (map Ok texts) ->
  exists text pre post,
    outcome (pdf_to_text env pdf_bytes) = Ok text /\
    List.concat (map (fun p => p ++ newline) texts) = pre ++ text ++ post /\
    whitespace pre /\ whitespace post /\
    (forall c rest, text = c :: rest -> isspace c = false) /\
    (forall c front, text = front ++ [c] -> isspace c = false).
Proof.
  intros Hread. rewrite (pdf_to_text_all_ok env pdf_bytes texts Hread).
  cbn [outcome snd].
  destruct (strip_decompose (List.concat (map (fun p => p ++ newline) texts)))
    as (pre & post & Hs & Hpre & Hpost).
  exists (strip (List.concat (map (fun p => p ++ newline) texts))), pre, post.
  split; [reflexivity|]. split; [exact Hs|]. split; [exact Hpre|].
  split; [exact Hpost|]. split.
  - intros c rest. apply strip_head.
  - intros c front. apply strip_last.
Qed.

Lemma pdf_to_text_only_trims_witness :
  exists text pre post,
    outcome (pdf_to_text (sample.env sample.transcript (scenario.answer (VList [])))
               sample.pdf_magic) = Ok text /\
    List.concat (map (fun p => p ++ newline) sample.pdf_pages) = pre ++ text ++ post /\
    whitespace pre /\ whitespace post /\
    (forall c rest, text = c :: rest -> isspace c = false) /\
    (forall c front, text = front ++ [c] -> isspace c = false).
Proof.
  apply (pdf_to_text_only_trims
           (sample.env sample.transcript (scenario.answer (VList [])))
           sample.pdf_magic sample.pdf_pages).
  reflexivity.
Defined.

(** X7.  A document without any text (no page, or pages whose text is
    empty or whitespace only, as for a scan) is not refused: [pdf_to_text]
    returns the empty string and the endpoint goes on to call the
    structured extractor with it. *)
Theorem blank_document_reaches_parser (env : Env) (file : UploadFile)
  (texts : list pystr) :
  admitted file ->
  content_type file = Some (lit "application/pdf") ->
  PdfReader env (body file) = Ok (map Ok texts) ->
  Forall whitespace texts ->
  outcome (pdf_to_text env (body file)) = Ok [] /\
  exists rest,
    trace (parse_invoice env file)
    = EvRead :: EvPdfReader (body file) :: EvParser (VStr []) :: rest.
Proof.
  intros Ha Hct Hread Hblank.
  pose proof (strip_whitespace _ (whitespace_lines texts Hblank)) as Hstrip.
  split.
  - rewrite (pdf_to_text_all_ok env (body file) texts Hread). cbn [outcome snd].
    now rewrite Hstrip.
  - rewrite (parse_invoice_trace env file Ha).
    rewrite (extract_text_pdf env file (body file) texts Hct Hread).
    cbn [outcome snd]. rewrite Hstrip. unfold extractor_call. rewrite Hct.
    change (type_is (Some (lit "application/pdf")) (lit "application/pdf")) with true.
    cbv iota. eexists. reflexivity.
Qed.

Lemma blank_document_reaches_parser_witness :
  outcome (pdf_to_text (scenario.env sample.loads scenario.scanned
                          (scenario.answer (VList [])))
             (body sample.pdf)) = Ok [] /\
  exists rest,
    trace (parse_invoice (scenario.env sample.loads scenario.scanned
                            (scenario.answer (VList [])))
             sample.pdf)
    = EvRead :: EvPdfReader (body sample.pdf) :: EvParser (VStr []) :: rest.
Proof.
  apply (blank_document_reaches_parser
           (scenario.env sample.loads scenario.scanned (scenario.answer (VList [])))
           sample.pdf [[]; [32%N; 10%N]]).
  - split; [reflexivity | vm_compute; split; [reflexivity | discriminate]].
  - reflexivity.
  - reflexivity.
  - repeat constructor.
Defined.

(** ** The line items *)

Lemma parse_line_items_iterated (env : Env) (raw v : PyVal) :
  iterated env raw v ->
  outcome (parse_line_items env raw)
  = match py_iter env v with
    | Raise e => Raise e
    | Ok items => comprehension (LineItem_of env) items
    end.
Proof.
  intros [(s & -> & Hs & Hloads) | (Hstr & Htrue & ->)].
  - rewrite parse_line_items_str by assumption. cbn [outcome snd]. now rewrite Hloads.
  - unfold parse_line_items. rewrite Htrue.
    destruct raw as [|b|z|f|s|l|d]; try discriminate Hstr;
      unfold ret, lift, bind;
      match goal with
      | |- context [py_iter ?e ?x] => destruct (py_iter e x)
      end; reflexivity.
Qed.

Lemma LineItem_of_ok_inv (env : Env) (doc : PyVal) (r : LineItem) :
  LineItem_of env doc = Ok r -> well_formed env doc r.
Proof.
  unfold LineItem_of, kwargs, LineItem_init, field. intros H.
  destruct doc as [| | | | |l|kw]; try discriminate.
  destruct (lookup (lit "description") kw) as [d|] eqn:Ld; [|discriminate].
  destruct (validate_str env d) as [d'|] eqn:Vd; [|discriminate].
  destruct (lookup (lit "quantity") kw) as [q|] eqn:Lq; [|discriminate].
  destruct (validate_float env q) as [q'|] eqn:Vq; [|discriminate].
  destruct (lookup (lit "unit_price") kw) as [u|] eqn:Lu; [|discriminate].
  destruct (validate_float env u) as [u'|] eqn:Vu; [|discriminate].
  destruct (lookup (lit "total") kw) as [t|] eqn:Lt; [|discriminate].
  destruct (validate_float env t) as [t'|] eqn:Vt; [|discriminate].
  injection H as <-. exists kw, d, q, u, t. cbn. repeat split; assumption.
Qed.

Lemma comprehension_first_failure {A B} (f : A -> Result PyExc B)
  (good : list A) (ys : list B) (bad : A) (rest : list A) (e : PyExc) :
  Forall2 (fun x y => f x = Ok y) good ys ->
  f bad = Raise e ->
  comprehension f (good ++ bad :: rest) = Raise e.
Proof.
  intros Hgood Hbad. induction Hgood as [|x y good ys Hxy _ IH]; simpl.
  - now rewrite Hbad.
  - now rewrite Hxy, IH.
Qed.

Lemma well_formed_all (env : Env) (docs : list PyVal) (records : list LineItem) :
  Forall2 (well_formed env) docs records ->
  Forall2 (fun x y => LineItem_of env x = Ok y) docs records.
Proof.
  intros H. eapply Forall2_impl; [|exact H]. intros doc r.
  apply LineItem_of_well_formed.
Qed.

(** X8.  A [line_items] value that already is a list is used as it is:
    [json.loads] is not called, and the endpoint returns the records of its
    elements, in order, when these are well formed and the five scalar
    fields validate. *)
Theorem structured_line_items_used_directly (env : Env) (file : UploadFile)
  (result : Prediction) (docs : list PyVal) (records : list LineItem)
  (n d v : pystr) (t : spec_float) (c : pystr) :
  answered env file result ->
  p_line_items result = Some (VList docs) ->
  Forall2 (well_formed env) docs records ->
  scalars_validate env result n d v t c ->
  outcome (parse_invoice env file) = Ok (mkInvoiceData n d v t c records) /\
  forall s, ~ In (EvJsonLoads s) (trace (parse_invoice env file)).
Proof.
  intros (Ht & Hlen & text & Htext & Hparser) Hraw Hdocs Hscalars.
  destruct (reply_after_parser env file text result (VList docs) Ht Hlen Htext
              Hparser Hraw) as [-> ->].
  rewrite parse_line_items_list. cbn [outcome trace fst snd].
  rewrite (comprehension_all_ok _ docs records (well_formed_all env docs records Hdocs)).
  rewrite (build_response_ok env result records n d v t c Hscalars).
  split; [reflexivity|].
  rewrite extract_text_trace.
  intros s [H|[H|[H|[]]]]; try discriminate.
  destruct (type_is (content_type file) (lit "application/pdf")); discriminate.
Qed.

Lemma structured_line_items_used_directly_witness :
  outcome
    (parse_invoice
       (sample.env sample.transcript (scenario.answer (VList [scenario.good_item])))
       sample.png)
  = Ok (sample.invoice [scenario.good_record]) /\
  forall s,
    ~ In (EvJsonLoads s)
        (trace
           (parse_invoice
              (sample.env sample.transcript
                 (scenario.answer (VList [scenario.good_item])))
              sample.png)).
Proof.
  apply (structured_line_items_used_directly
           (sample.env sample.transcript (scenario.answer (VList [scenario.good_item])))
           sample.png
           (sample.prediction sample.total (Some (VList [scenario.good_item])))
           [scenario.good_item] [scenario.good_record]).
  - sample_answered.
  - reflexivity.
  - repeat constructor; do 5 eexists; repeat split; reflexivity.
  - sample_scalars.
Defined.

(** X9.  Malformed items are never skipped: when the endpoint returns a
    record and the value iterated over is a list, every element of that
    list is well formed and the record holds exactly one line item per
    element, in the same order. *)
Theorem returned_items_are_well_formed (env : Env) (file : UploadFile)
  (result : Prediction) (raw : PyVal) (docs : list PyVal) (inv : InvoiceData) :
  answered env file result ->
  p_line_items result = Some raw ->
  iterated env raw (VList docs) ->
  outcome (parse_invoice env file) = Ok inv ->
  Forall2 (well_formed env) docs (line_items inv) /\
  List.length (line_items inv) = List.length docs.
Proof.
  intros (Ht & Hlen & text & Htext & Hparser) Hraw Hiter.
  destruct (reply_after_parser env file text result raw Ht Hlen Htext Hparser Hraw)
    as [-> _].
  rewrite (parse_line_items_iterated env raw (VList docs) Hiter). cbn [py_iter].
  destruct (comprehension (LineItem_of env) docs) as [items|e] eqn:Hc; [|discriminate].
  destruct (build_response env result items) as [inv'|e] eqn:Hb; [|discriminate].
  intros H. injection H as <-.
  apply build_response_ok_inv in Hb as [_ ->].
  apply comprehension_ok_inv in Hc.
  assert (Forall2 (well_formed env) docs items) as Hwf.
  { eapply Forall2_impl; [|exact Hc]. intros doc r. apply LineItem_of_ok_inv. }
  split; [exact Hwf | symmetry; eapply Forall2_length; exact Hwf].
Qed.

Lemma returned_items_are_well_formed_witness :
  Forall2
    (well_formed
       (sample.env sample.transcript (scenario.answer (VStr sample.two_items))))
    match sample.two_items_decoded with VList docs => docs | _ => [] end
    (line_items (sample.invoice sample.two_records)) /\
  List.length (line_items (sample.invoice sample.two_records))
  = List.length match sample.two_items_decoded with VList docs => docs | _ => [] end.
Proof.
  apply (returned_items_are_well_formed
           (sample.env sample.transcript (scenario.answer (VStr sample.two_items)))
           sample.png
           (sample.prediction sample.total (Some (VStr sample.two_items)))
           (VStr sample.two_items)).
  - sample_answered.
  - reflexivity.
  - left. exists sample.two_items. split; [reflexivity|].
    split; [discriminate | reflexivity].
  - reflexivity.
Defined.

(** X10.  The comprehension stops at the first element that cannot be made
    a [LineItem]: the request fails with
    "Failed to process invoice: <message>", the message being that of this
    element's exception, whatever the elements after it are. *)
Theorem first_malformed_item_decides (env : Env) (file : UploadFile)
  (result : Prediction) (raw : PyVal) (good : list PyVal) (records : list LineItem)
  (bad : PyVal) (rest : list PyVal) (e : PyExc) :
  answered env file result ->
  p_line_items result = Some raw ->
  iterated env raw (VList (good ++ bad :: rest)) ->
  Forall2 (well_formed env) good records ->
  LineItem_of env bad = Raise e ->
  outcome (parse_invoice env file)
  = Raise (mkHTTPException 500 (lit "Failed to process invoice: " ++ exc_str e)).
Proof.
  intros (Ht & Hlen & text & Htext & Hparser) Hraw Hiter Hgood Hbad.
  destruct (reply_after_parser env file text result raw Ht Hlen Htext Hparser Hraw)
    as [-> _].
  rewrite (parse_line_items_iterated env raw _ Hiter). cbn [py_iter].
  rewrite (comprehension_first_failure _ good records bad rest e
             (well_formed_all env good records Hgood) Hbad).
  now rewrite (LineItem_of_raises env bad e Hbad).
Qed.

Lemma first_malformed_item_decides_witness :
  outcome
    (parse_invoice
       (sample.env sample.transcript
          (scenario.answer (VList [scenario.good_item; VInt 7; VNone])))
       sample.png)
  = Raise (mkHTTPException 500
             (lit "Failed to process invoice: "
                ++ exc_str (fault (sample.env sample.transcript
                                     (scenario.answer
                                        (VList [scenario.good_item; VInt 7; VNone])))
                              (NotAMapping (VInt 7))))).
Proof.
  apply (first_malformed_item_decides
           (sample.env sample.transcript
              (scenario.answer (VList [scenario.good_item; VInt 7; VNone])))
           sample.png
           (sample.prediction sample.total
              (Some (VList [scenario.good_item; VInt 7; VNone])))
           (VList [scenario.good_item; VInt 7; VNone])
           [scenario.good_item] [scenario.good_record] (VInt 7) [VNone]).
  - sample_answered.
  - reflexivity.
  - right. repeat split.
  - repeat constructor; do 5 eexists; repeat split; reflexivity.
  - reflexivity.
Defined.

Lemma comprehension_head_fails {A B} (f : A -> Result PyExc B) (x : A) (l : list A)
  (e : PyExc) :
  f x = Raise e -> comprehension f (x :: l) = Raise e.
Proof. intros H. simpl. now rewrite H. Qed.

(** X11.  Only a list can carry line items.  When the value iterated over
    is a number, a boolean or [None] the [for] raises; when it is a
    non-empty JSON object or string its keys or characters are not
    mappings and [LineItem( **item )] raises.  Either way the request fails
    with a [TypeError], reported as "Failed to process invoice: <message>". *)
Theorem non_list_line_items_fail (env : Env) (file : UploadFile)
  (result : Prediction) (raw v : PyVal) :
  answered env file result ->
  p_line_items result = Some raw ->
  iterated env raw v ->
  (forall docs, v <> VList docs) ->
  v <> VDict [] ->
  v <> VStr [] ->
  exists e,
    outcome (parse_invoice env file)
    = Raise (mkHTTPException 500 (lit "Failed to process invoice: " ++ exc_str e)) /\
    exc_type e = TypeError.
Proof.
  intros (Ht & Hlen & text & Htext & Hparser) Hraw Hiter Hlist Hdict Hstr.
  destruct (reply_after_parser env file text result raw Ht Hlen Htext Hparser Hraw)
    as [-> _].
  rewrite (parse_line_items_iterated env raw v Hiter).
  destruct v as [|b|z|f|s|l|d]; cbn [py_iter].
  - eexists. split; reflexivity.
  - eexists. split; reflexivity.
  - eexists. split; reflexivity.
  - eexists. split; reflexivity.
  - destruct s as [|c s]; [congruence|]. cbn [map].
    rewrite (comprehension_head_fails (LineItem_of env) (VStr [c]) _
               (fault env (NotAMapping (VStr [c]))) eq_refl).
    eexists. split; reflexivity.
  - exfalso. now apply (Hlist l).
  - destruct d as [|[k x] d]; [congruence|]. cbn [map fst].
    rewrite (comprehension_head_fails (LineItem_of env) (VStr k) _
               (fault env (NotAMapping (VStr k))) eq_refl).
    eexists. split; reflexivity.
Qed.

Lemma non_list_line_items_fail_witness :
  exists e,
    outcome
      (parse_invoice
         (scenario.env (scenario.always scenario.good_item) sample.reader
            (scenario.answer (VStr scenario.single_object)))
         sample.png)
    = Raise (mkHTTPException 500 (lit "Failed to process invoice: " ++ exc_str e)) /\
    exc_type e = TypeError.
Proof.
  apply (non_list_line_items_fail
           (scenario.env (scenario.always scenario.good_item) sample.reader
              (scenario.answer (VStr scenario.single_object)))
           sample.png
           (sample.prediction sample.total (Some (VStr scenario.single_object)))
           (VStr scenario.single_object) scenario.good_item).
  - sample_answered.
  - reflexivity.
  - left. eexists. split; [reflexivity|]. split; [discriminate | reflexivity].
  - discriminate.
  - discriminate.
  - discriminate.
Defined.

(** X12.  A [line_items] string that decodes to something empty, be it an
    array, an object or a string, gives a record without line items: the
    comprehension has nothing to iterate over, so the kind of the empty
    value is never looked at. *)
Theorem empty_decoded_value_yields_no_items (env : Env) (file : UploadFile)
  (result : Prediction) (s : pystr) (v : PyVal)
  (n d vn : pystr) (t : spec_float) (c : pystr) :
  answered env file result ->
  p_line_items result = Some (VStr s) ->
  s <> [] ->
  json_loads env s = Ok v ->
  v = VList [] \/ v = VDict [] \/ v = VStr [] ->
  scalars_validate env result n d vn t c ->
  outcome (parse_invoice env file) = Ok (mkInvoiceData n d vn t c []).
Proof.
  intros (Ht & Hlen & text & Htext & Hparser) Hraw Hs Hloads Hv Hscalars.
  destruct (reply_after_parser env file text result (VStr s) Ht Hlen Htext Hparser Hraw)
    as [-> _].
  rewrite parse_line_items_str by assumption. cbn [outcome snd]. rewrite Hloads.
  destruct Hv as [-> | [-> | ->]]; cbn [py_iter map comprehension];
    now rewrite (build_response_ok env result [] n d vn t c Hscalars).
Qed.

Lemma empty_decoded_value_yields_no_items_witness :
  outcome
    (parse_invoice
       (scenario.env (scenario.always (VDict [])) sample.reader
          (scenario.answer (VStr (lit "{}"))))
       sample.png)
  = Ok (sample.invoice []).
Proof.
  apply (empty_decoded_value_yields_no_items
           (scenario.env (scenario.always (VDict [])) sample.reader
              (scenario.answer (VStr (lit "{}"))))
           sample.png
           (sample.prediction sample.total (Some (VStr (lit "{}"))))
           (lit "{}") (VDict [])).
  - sample_answered.
  - reflexivity.
  - discriminate.
  - reflexivity.
  - right. left. reflexivity.
  - sample_scalars.
Defined.

(** ** The scalar fields *)

Lemma build_response_float_fails (env : Env) (result : Prediction)
  (items : list LineItem) (rn rd rv rt : PyVal) (e : PyExc) :
  p_invoice_number result = Some rn ->
  p_date result = Some rd ->
  p_vendor_name result = Some rv ->
  p_total_amount result = Some rt ->
  py_float env rt = Raise e ->
  build_response env result items = Raise e.
Proof.
  intros Hn Hd Hv Ht He. unfold build_response.
  rewrite Hn, Hd, Hv, Ht. cbn [getattr]. now rewrite He.
Qed.

(** X13.  [total_amount] goes through [float()] before the record is
    validated.  A reply whose [total_amount] is [None], a list, a dict, an
    [int] beyond the range of a double or a string that is not a number
    fails the whole request with
    "Failed to process invoice: <message>", although its line items were
    assembled and the fields read before it are present. *)
Theorem total_amount_must_convert (env : Env) (file : UploadFile)
  (result : Prediction) (raw : PyVal) (items : list LineItem) (rn rd rv rt : PyVal) :
  answered env file result ->
  p_line_items result = Some raw ->
  outcome (parse_line_items env raw) = Ok items ->
  p_invoice_number result = Some rn ->
  p_date result = Some rd ->
  p_vendor_name result = Some rv ->
  p_total_amount result = Some rt ->
  rt = VNone \/ (exists l, rt = VList l) \/ (exists d, rt = VDict d) \/
  (exists z, rt = VInt z /\ float_of_int z = None) \/
  (exists s, rt = VStr s /\ float_of_str env s = None) ->
  exists e,
    outcome (parse_invoice env file)
    = Raise (mkHTTPException 500 (lit "Failed to process invoice: " ++ exc_str e)) /\
    (exc_type e = TypeError \/ exc_type e = OverflowError \/ exc_type e = ValueError).
Proof.
  intros (Ht & Hlen & text & Htext & Hparser) Hraw Hitems Hn Hd Hv Htot Hbad.
  destruct (reply_after_parser env file text result raw Ht Hlen Htext Hparser Hraw)
    as [-> _].
  rewrite Hitems.
  assert (exists e, py_float env rt = Raise e /\
                    (exc_type e = TypeError \/ exc_type e = OverflowError
                     \/ exc_type e = ValueError)) as (e & He & Hclass).
  { destruct Hbad as [-> | [(l & ->) | [(d & ->) | [(z & -> & Hz) | (s & -> & Hs)]]]];
      cbn [py_float]; rewrite ?Hz, ?Hs; eexists; (split; [reflexivity|]); cbn; auto. }
  exists e. rewrite (build_response_float_fails env result items rn rd rv rt e
                       Hn Hd Hv Htot He).
  split; [reflexivity | exact Hclass].
Qed.

Lemma total_amount_must_convert_witness :
  exists e,
    outcome
      (parse_invoice
         (sample.env sample.transcript
            (Ok (sample.prediction (Some (VInt (2 ^ 1024)))
                   (Some (VStr sample.two_items)))))
         sample.png)
    = Raise (mkHTTPException 500 (lit "Failed to process invoice: " ++ exc_str e)) /\
    (exc_type e = TypeError \/ exc_type e = OverflowError \/ exc_type e = ValueError).
Proof.
  apply (total_amount_must_convert
           (sample.env sample.transcript
              (Ok (sample.prediction (Some (VInt (2 ^ 1024)))
                     (Some (VStr sample.two_items)))))
           sample.png
           (sample.prediction (Some (VInt (2 ^ 1024))) (Some (VStr sample.two_items)))
           (VStr sample.two_items) sample.two_records
           (VStr (lit "INV-2024-001")) (VStr (lit "2024-07-25"))
           (VStr (lit "ACME GmbH")) (VInt (2 ^ 1024))).
  - sample_answered.
  - reflexivity.
  - reflexivity.
  - reflexivity.
  - reflexivity.
  - reflexivity.
  - reflexivity.
  - right. right. right. left. eexists. split; reflexivity.
Defined.

(** ** The request to the vision model *)

Lemma b64_three_step (P : bytes -> Prop) :
  P [] ->
  (forall x, P [x]) ->
  (forall x y, P [x; y]) ->
  (forall x y z rest, P rest -> P (x :: y :: z :: rest)) ->
  forall b, P b.
Proof.
  intros H0 H1 H2 H3.
  assert (forall b, P b /\ (forall x, P (x :: b)) /\ (forall x y, P (x :: y :: b)))
    as H.
  { induction b as [|z b (IH0 & IH1 & IH2)].
    - auto.
    - split; [apply IH1|]. split; [intros x; apply IH2|].
      intros x y. now apply H3. }
  intros b. apply H.
Qed.

Lemma b64_digit_not_pad (i : N) : b64_digit i <> b64_pad.
Proof.
  unfold b64_digit.
  assert (N.to_nat (i mod 64) < 64)%nat as Hlt.
  { pose proof (N.mod_lt i 64). lia. }
  generalize dependent (N.to_nat (i mod 64)). intros n Hn.
  assert (forallb (fun k => negb (N.eqb (nth k b64_alphabet 0%N) b64_pad)) (seq 0 64)
          = true) as Hall by (vm_compute; reflexivity).
  rewrite forallb_forall in Hall. specialize (Hall n).
  rewrite in_seq in Hall. specialize (Hall (conj (Nat.le_0_l n) Hn)).
  apply negb_true_iff, N.eqb_neq in Hall. exact Hall.
Qed.

Lemma b64_alphabet_distinct (n m : nat) :
  (n < 64)%nat -> (m < 64)%nat ->
  nth n b64_alphabet 0%N = nth m b64_alphabet 0%N -> n = m.
Proof.
  intros Hn Hm H.
  assert (forallb
            (fun a =>
               forallb
                 (fun b =>
                    implb (N.eqb (nth a b64_alphabet 0%N) (nth b b64_alphabet 0%N))
                      (Nat.eqb a b))
                 (seq 0 64))
            (seq 0 64) = true) as Hall by (vm_compute; reflexivity).
  rewrite forallb_forall in Hall. specialize (Hall n).
  rewrite in_seq in Hall. specialize (Hall (conj (Nat.le_0_l n) Hn)).
  rewrite forallb_forall in Hall. specialize (Hall m).
  rewrite in_seq in Hall. specialize (Hall (conj (Nat.le_0_l m) Hm)).
  rewrite H, N.eqb_refl in Hall. now apply Nat.eqb_eq in Hall.
Qed.

Lemma b64_digit_inj (i j : N) :
  b64_digit i = b64_digit j -> (i mod 64 = j mod 64)%N.
Proof.
  unfold b64_digit. intros H. apply N2Nat.inj.
  apply b64_alphabet_distinct; [| |exact H].
  - pose proof (N.mod_lt i 64). lia.
  - pose proof (N.mod_lt j 64). lia.
Qed.

Lemma byte_to_N_inj (x y : byte) : Byte.to_N x = Byte.to_N y -> x = y.
Proof.
  intros H. pose proof (Byte.of_to_N x) as Hx. rewrite H, Byte.of_to_N in Hx.
  congruence.
Qed.

(** The four digits of a group determine its 24 bits. *)
Lemma b64_group_inj (n m : N) :
  (n < 16777216)%N -> (m < 16777216)%N ->
  b64_digit (n / 262144) = b64_digit (m / 262144) ->
  b64_digit (n / 4096) = b64_digit (m / 4096) ->
  b64_digit (n / 64) = b64_digit (m / 64) ->
  (n / 64 = m / 64)%N.
Proof.
  intros Hn Hm H1 H2 H3.
  apply b64_digit_inj in H1. apply b64_digit_inj in H2. apply b64_digit_inj in H3.
  apply N2Z.inj. rewrite !N2Z.inj_div.
  apply (f_equal Z.of_N) in H1, H2, H3.
  rewrite !N2Z.inj_mod, !N2Z.inj_div in H1, H2, H3.
  apply N2Z.inj_lt in Hn, Hm.
  pose proof (N2Z.is_nonneg n). pose proof (N2Z.is_nonneg m).
  change (Z.of_N 16777216) with 16777216%Z in *.
  change (Z.of_N 262144) with 262144%Z in *.
  change (Z.of_N 4096) with 4096%Z in *.
  change (Z.of_N 64) with 64%Z in *.
  generalize dependent (Z.of_N n). generalize dependent (Z.of_N m).
  intros a Ha0 Ha b H1 H2 H3 Hb0 Hb.
  Z.to_euclidean_division_equations. lia.
Qed.

Lemma b64_group_eq (n m : N) :
  (n < 16777216)%N -> (m < 16777216)%N ->
  b64_digit (n / 262144) = b64_digit (m / 262144) ->
  b64_digit (n / 4096) = b64_digit (m / 4096) ->
  ((n / 64) mod 64 = (m / 64) mod 64)%N ->
  (n mod 64 = m mod 64)%N ->
  n = m.
Proof.
  intros Hn Hm H1 H2 H3 H4.
  assert (n / 64 = m / 64)%N as Hq.
  { apply b64_group_inj; try assumption. unfold b64_digit. now rewrite H3. }
  rewrite (N.div_mod n 64), (N.div_mod m 64) by discriminate. now rewrite Hq, H4.
Qed.

Lemma b64_low_bits_one (x : N) :
  (((x * 65536) / 64) mod 64 = 0 /\ (x * 65536) mod 64 = 0)%N.
Proof.
  replace (x * 65536)%N with (x * 1024 * 64)%N by lia.
  rewrite N.div_mul by discriminate.
  replace (x * 1024)%N with (x * 16 * 64)%N at 1 by lia.
  split; apply N.Div0.mod_mul.
Qed.

Lemma b64_low_bits_two (x y : N) : ((x * 65536 + y * 256) mod 64 = 0)%N.
Proof.
  replace (x * 65536 + y * 256)%N with ((x * 1024 + y * 4) * 64)%N by lia.
  apply N.Div0.mod_mul.
Qed.

Lemma b64encode_inj (a b : bytes) : b64encode a = b64encode b -> a = b.
Proof.
  revert b. pattern a. apply b64_three_step; clear a;
    [ | intros x | intros x y | intros x y z rest IH];
    intros [|x' [|y' [|z' rest']]]; cbn [b64encode app]; intros H;
    try reflexivity; try discriminate H.
  - injection H as H1 H2.
    pose proof (Byte.to_N_bounded x) as Bx. pose proof (Byte.to_N_bounded x') as Bx'.
    destruct (b64_low_bits_one (Byte.to_N x)) as [L1 L2].
    destruct (b64_low_bits_one (Byte.to_N x')) as [L1' L2'].
    assert (Byte.to_N x * 65536 = Byte.to_N x' * 65536)%N as E
      by (apply b64_group_eq; try assumption; try lia; congruence).
    f_equal. apply byte_to_N_inj. lia.
  - injection H as _ _ H. symmetry in H. now apply b64_digit_not_pad in H.
  - injection H as _ _ H _. symmetry in H. now apply b64_digit_not_pad in H.
  - injection H as _ _ H. now apply b64_digit_not_pad in H.
  - injection H as H1 H2 H3.
    pose proof (Byte.to_N_bounded x) as Bx. pose proof (Byte.to_N_bounded x') as Bx'.
    pose proof (Byte.to_N_bounded y) as By. pose proof (Byte.to_N_bounded y') as By'.
    pose proof (b64_low_bits_two (Byte.to_N x) (Byte.to_N y)) as L.
    pose proof (b64_low_bits_two (Byte.to_N x') (Byte.to_N y')) as L'.
    apply b64_digit_inj in H3.
    assert (Byte.to_N x * 65536 + Byte.to_N y * 256
            = Byte.to_N x' * 65536 + Byte.to_N y' * 256)%N as E
      by (apply b64_group_eq; try assumption; try lia; congruence).
    assert (Byte.to_N x = Byte.to_N x' /\ Byte.to_N y = Byte.to_N y') as [Hx Hy] by lia.
    apply byte_to_N_inj in Hx, Hy. congruence.
  - injection H as _ _ _ H _. symmetry in H. now apply b64_digit_not_pad in H.
  - injection H as _ _ H _. now apply b64_digit_not_pad in H.
  - injection H as _ _ _ H _. now apply b64_digit_not_pad in H.
  - injection H as H1 H2 H3 H4 Hrest.
    pose proof (Byte.to_N_bounded x) as Bx. pose proof (Byte.to_N_bounded x') as Bx'.
    pose proof (Byte.to_N_bounded y) as By. pose proof (Byte.to_N_bounded y') as By'.
    pose proof (Byte.to_N_bounded z) as Bz. pose proof (Byte.to_N_bounded z') as Bz'.
    apply b64_digit_inj in H3, H4.
    assert (Byte.to_N x * 65536 + Byte.to_N y * 256 + Byte.to_N z
            = Byte.to_N x' * 65536 + Byte.to_N y' * 256 + Byte.to_N z')%N as E
      by (apply b64_group_eq; try assumption; lia).
    assert (Byte.to_N x = Byte.to_N x' /\ Byte.to_N y = Byte.to_N y'
            /\ Byte.to_N z = Byte.to_N z') as (Hx & Hy & Hz) by lia.
    apply byte_to_N_inj in Hx, Hy, Hz. apply IH in Hrest. congruence.
Qed.

Lemma absent_attribute_fails_witness :
  exists e,
    outcome
      (parse_invoice
         (sample.env sample.transcript (Ok (sample.prediction sample.total None)))
         sample.png)
    = Raise e /\
    status_code e = 500%Z.
Proof.
  apply (absent_attribute_fails
           (sample.env sample.transcript (Ok (sample.prediction sample.total None)))
           sample.png (sample.prediction sample.total None)).
  - sample_answered.
  - do 5 right. reflexivity.
Defined.

(** X15.  The request sent to the vision model identifies the image: two
    different byte buffers never give the same data URL, so nothing of the
    upload is lost or confused on the way to the model. *)
Theorem distinct_images_distinct_requests (a b : bytes) :
  a <> b -> image_url (vision_request a) <> image_url (vision_request b).
Proof.
  intros Hne H. apply Hne. unfold vision_request in H. cbn [image_url] in H.
  apply app_inv_head in H. now apply b64encode_inj.
Qed.

Lemma distinct_images_distinct_requests_witness :
  image_url (vision_request [x89; x50; x4e; x47])
  <> image_url (vision_request [x89; x50; x4e; x46]).
Proof.
  apply (distinct_images_distinct_requests [x89; x50; x4e; x47] [x89; x50; x4e; x46]).
  discriminate.
Defined.

(** X16.  On the image path the structured extractor is called with the
    content of the first choice of the vision reply, as it is: further
    choices are ignored, the text is not stripped, and a content of [None]
    is passed on rather than refused. *)
Theorem first_choice_reaches_parser (env : Env) (file : UploadFile)
  (first : Choice) (others : list Choice) :
  admitted file ->
  content_type file = Some (lit "image/png") ->
  chat_completions_create env (vision_request (body file))
  = Ok (mkChatCompletion (first :: others)) ->
  outcome (invoice_data_extraction env (body file)) = Ok (content (message first)) /\
  exists rest,
    trace (parse_invoice env file)
    = EvRead :: EvChatCompletion (vision_request (body file))
        :: EvParser (content (message first)) :: rest.
Proof.
  intros Ha Hct Hchat.
  assert (invoice_data_extraction env (body file)
          = ([EvChatCompletion (vision_request (body file))],
             Ok (content (message first)))) as Hrun.
  { unfold invoice_data_extraction, call, bind. now rewrite Hchat. }
  split; [now rewrite Hrun|].
  rewrite (parse_invoice_trace env file Ha). unfold extractor_call, extract_text.
  rewrite Hct.
  change (type_is (Some (lit "image/png")) (lit "application/pdf")) with false.
  cbv iota. rewrite Hrun. cbn [outcome snd]. eexists. reflexivity.
Qed.

Lemma first_choice_reaches_parser_witness :
  outcome
    (invoice_data_extraction
       (sample.env
          (Ok (mkChatCompletion
                 [mkChoice (mkMessage VNone); mkChoice (mkMessage (VStr (lit "INV")))]))
          (scenario.answer (VList [])))
       (body sample.png))
  = Ok VNone /\
  exists rest,
    trace
      (parse_invoice
         (sample.env
            (Ok (mkChatCompletion
                   [mkChoice (mkMessage VNone); mkChoice (mkMessage (VStr (lit "INV")))]))
            (scenario.answer (VList [])))
         sample.png)
    = EvRead :: EvChatCompletion (vision_request (body sample.png))
        :: EvParser VNone :: rest.
Proof.
  apply (first_choice_reaches_parser
           (sample.env
              (Ok (mkChatCompletion
                     [mkChoice (mkMessage VNone);
                      mkChoice (mkMessage (VStr (lit "INV")))]))
              (scenario.answer (VList [])))
           sample.png (mkChoice (mkMessage VNone))
           [mkChoice (mkMessage (VStr (lit "INV")))]).
  - split; [reflexivity | vm_compute; split; [reflexivity | discriminate]].
  - reflexivity.
  - reflexivity.
Defined.

(** ** Which failures carry the fixed message *)

Lemma iter_comprehension_raises (env : Env) (v : PyVal) (e : PyExc) :
  match py_iter env v with
  | Raise e => Raise e
  | Ok items => comprehension (LineItem_of env) items
  end = Raise e ->
  is_JSONDecodeError (exc_type e) = false.
Proof.
  destruct (py_iter env v) as [items|e'] eqn:Hi.
  - apply comprehension_raises.
  - intros H. injection H as <-. now apply py_iter_raises in Hi.
Qed.

Lemma parse_line_items_decode_error (env : Env) (raw : PyVal) (e : PyExc) :
  outcome (parse_line_items env raw) = Raise e ->
  is_JSONDecodeError (exc_type e) = true ->
  exists s, raw = VStr s /\ s <> [] /\ json_loads env s = Raise e.
Proof.
  intros Hout Hclass.
  destruct (truthy raw) eqn:Htrue.
  2:{ rewrite parse_line_items_falsy in Hout by assumption. discriminate. }
  destruct raw as [|b|z|f|s|l|d];
    try (match type of Hout with
         | outcome (parse_line_items _ ?r) = _ =>
             assert (iterated env r r) as Hiter
               by (right; split; [reflexivity|]; split; [exact Htrue | reflexivity]);
             rewrite (parse_line_items_iterated env r r Hiter) in Hout
         end;
         apply iter_comprehension_raises in Hout; congruence).
  exists s. split; [reflexivity|].
  assert (s <> []) as Hs by (intros ->; discriminate).
  split; [exact Hs|].
  rewrite parse_line_items_str in Hout by assumption. cbn [outcome snd] in Hout.
  destruct (json_loads env s) as [v|e'] eqn:Hloads; [|congruence].
  apply iter_comprehension_raises in Hout. congruence.
Qed.

(** X17.  The fixed message "Failed to parse line items from invoice." is
    sent only when one of the outside calls raised a [JSONDecodeError]:
    the text extractor, the structured extractor, or [json.loads] on the
    reply's non-empty [line_items] string.  No failure of iterating,
    of building a [LineItem] or of validating the record is ever reported
    with it. *)
Theorem fixed_message_only_for_decode_errors (env : Env) (file : UploadFile) :
  outcome (parse_invoice env file)
  = Raise (mkHTTPException 500 (lit "Failed to parse line items from invoice.")) ->
  exists e,
    exc_type e = JSONDecodeError /\
    (outcome (extract_text env file (body file)) = Raise e \/
     exists text,
       outcome (extract_text env file (body file)) = Ok text /\
       (parser env text = Raise e \/
        exists result s,
          parser env text = Ok result /\
          p_line_items result = Some (VStr s) /\
          s <> [] /\
          json_loads env s = Raise e)).
Proof.
  intros Hout. destruct (admitted_dec file) as [[Ht Hlen]|Hna].
  2:{ destruct (not_admitted env file Hna) as (h & Hh & Hs & _).
      rewrite Hh in Hout. injection Hout as ->. discriminate. }
  rewrite parse_invoice_guards_passed in Hout by assumption.
  cbn [outcome snd] in Hout. rewrite process_outcome in Hout.
  assert (forall e : PyExc,
            Raise (E := HTTPException) (A := InvoiceData)
              (if is_JSONDecodeError (exc_type e) then parse_failure
               else process_failure e)
            = Raise parse_failure ->
            exc_type e = JSONDecodeError) as Hclass.
  { intros e H. destruct (exc_type e) eqn:Hc; cbn in H; try reflexivity;
      injection H as H; vm_compute in H; discriminate H. }
  destruct (outcome (extract_text env file (body file))) as [text|e] eqn:Htext.
  2:{ exists e. split; [now apply Hclass | now left]. }
  destruct (parser env text) as [result|e] eqn:Hparser.
  2:{ exists e. split; [now apply Hclass|]. right. exists text. auto. }
  destruct (getattr env (p_line_items result) "line_items") as [raw|e] eqn:Hraw.
  2:{ apply Hclass in Hout. apply getattr_raises in Hraw.
      rewrite Hout in Hraw. discriminate. }
  destruct (p_line_items result) as [raw'|] eqn:Hattr; [|discriminate].
  cbn [getattr] in Hraw. injection Hraw as ->.
  destruct (outcome (parse_line_items env raw)) as [items|e] eqn:Hitems.
  - destruct (build_response env result items) as [inv|e] eqn:Hb; [discriminate|].
    apply Hclass in Hout. apply build_response_raises in Hb.
    rewrite Hout in Hb. discriminate.
  - apply Hclass in Hout.
    destruct (parse_line_items_decode_error env raw e Hitems) as (s & -> & Hs & Hloads).
    { now rewrite Hout. }
    exists e. split; [exact Hout|]. right. exists text. split; [reflexivity|].
    right. exists result, s. auto.
Qed.

Lemma fixed_message_only_for_decode_errors_witness :
  exists e,
    exc_type e = JSONDecodeError /\
    (outcome
       (extract_text
          (sample.env sample.transcript (scenario.answer (VStr (lit "not json"))))
          sample.png (body sample.png))
     = Raise e \/
     exists text,
       outcome
         (extract_text
            (sample.env sample.transcript (scenario.answer (VStr (lit "not json"))))
            sample.png (body sample.png))
       = Ok text /\
       (parser (sample.env sample.transcript (scenario.answer (VStr (lit "not json"))))
          text = Raise e \/
        exists result s,
          parser (sample.env sample.transcript (scenario.answer (VStr (lit "not json"))))
            text = Ok result /\
          p_line_items result = Some (VStr s) /\
          s <> [] /\
          json_loads
            (sample.env sample.transcript (scenario.answer (VStr (lit "not json"))))
            s = Raise e)).
Proof.
  apply (fixed_message_only_for_decode_errors
           (sample.env sample.transcript (scenario.answer (VStr (lit "not json"))))
           sample.png).
  reflexivity.
Defined.
